(** * nanopod web gateway: the room-scoped broadcast hub of [src/channels/web.ts]

A shallow embedding of the [WebChannel] class (the multi-room version of
the gateway) and the properties of its subscriber table, its publish loop,
its request handlers and its room-name derivation.

Conventions of the embedding.
- A JavaScript string is a [string]; every [ascii] stands for one UTF-16
  code unit in the range 0..255, so [toLowerCase] and [trim] below follow
  ECMAScript on that range (Latin-1 capitals, the no-break space).
- Objects that the Node runtime creates (response objects, interval
  timers) are handles: natural numbers handed out by a counter.
- Calls on objects that live outside the class (the response streams, the
  timers, the injected callbacks, the message store) are recorded, in
  program order, in a trace of [Event]s.
- [JSON.parse], [getRecentMessages], [ASSISTANT_NAME] and the fate of a
  chunk handed to [res.write] come from outside the file: they are the
  fields of a [Platform].  The registry is whatever [registeredGroups()]
  returns at the time of the call, an argument of each handler.
- A request body arrives as [Buffer]s; the handlers see the text that
  [toString] gives for each chunk on its own, and a request URL is what
  [new URL] makes of it, or a TypeError.
- The injected callbacks and [res.write] are taken to return normally; the
  only exceptions modelled are the ones the handlers catch themselves, from
  [JSON.parse] and from destructuring its result, and the two that leave
  [handleRequest], from [new URL] and from [decodeURIComponent]. *)

From Stdlib Require Import String Ascii List Bool Arith NArith ZArith Lia DecimalString.
Import ListNotations.
Local Open Scope string_scope.
Local Open Scope list_scope.

(* ================================================================== *)
(** ** JavaScript strings *)
(* ================================================================== *)

Module JsString.

Definition code (c : ascii) : nat := nat_of_ascii c.

Definition between (lo hi : nat) (c : ascii) : bool :=
  ((lo <=? code c) && (code c <=? hi))%nat.

(** The character class [[a-z0-9]] of the slug regular expression. *)
Definition isLowerAlnum (c : ascii) : bool :=
  between 97 122 c || between 48 57 c.

Definition isDash (c : ascii) : bool := (code c =? 45)%nat.

(** ECMAScript WhiteSpace and LineTerminator code units below 256:
    TAB, LF, VT, FF, CR, SPACE and NBSP. *)
Definition isWhiteSpace (c : ascii) : bool :=
  between 9 13 c || (code c =? 32)%nat || (code c =? 160)%nat.

(** [String.prototype.toLowerCase] on one code unit: [A-Z] and the
    Latin-1 capitals U+00C0..U+00DE (but not the multiplication sign
    U+00D7) move up by 32. *)
Definition lowerChar (c : ascii) : ascii :=
  if between 65 90 c || (between 192 222 c && negb (code c =? 215)%nat)
  then ascii_of_nat (code c + 32)
  else c.

Fixpoint toLowerCase (s : string) : string :=
  match s with
  | EmptyString => EmptyString
  | String c r => String (lowerChar c) (toLowerCase r)
  end.

Fixpoint trimStart (s : string) : string :=
  match s with
  | EmptyString => EmptyString
  | String c r => if isWhiteSpace c then trimStart r else s
  end.

Fixpoint trimEnd (s : string) : string :=
  match s with
  | EmptyString => EmptyString
  | String c r =>
      match trimEnd r with
      | EmptyString => if isWhiteSpace c then EmptyString else String c EmptyString
      | r' => String c r'
      end
  end.

(** [String.prototype.trim]. *)
Definition trim (s : string) : string := trimEnd (trimStart s).

(** [s.startsWith(p)]. *)
Definition startsWith (p s : string) : bool := String.prefix p s.

(** [s.replace(/[^a-z0-9]+/g, '-')]: every maximal run of code units
    outside [[a-z0-9]] becomes one dash.  [inRun] tells that the previous
    code unit already belonged to the run being replaced. *)
Fixpoint replaceRuns (inRun : bool) (s : string) : string :=
  match s with
  | EmptyString => EmptyString
  | String c r =>
      if isLowerAlnum c then String c (replaceRuns false r)
      else if inRun then replaceRuns true r
      else String "-"%char (replaceRuns true r)
  end.

(** The [^-] alternative of [/^-|-$/g]: it can match at index 0 only. *)
Definition dropLeadingDash (s : string) : string :=
  match s with
  | String c r => if isDash c then r else s
  | EmptyString => EmptyString
  end.

(** The [-$] alternative of [/^-|-$/g]: a dash that is the last code unit
    of what the scan has not consumed yet. *)
Fixpoint dropTrailingDash (s : string) : string :=
  match s with
  | EmptyString => EmptyString
  | String c EmptyString => if isDash c then EmptyString else s
  | String c r => String c (dropTrailingDash r)
  end.

(** [s.replace(/^-|-$/g, '')]. *)
Definition stripEdgeDashes (s : string) : string :=
  dropTrailingDash (dropLeadingDash s).

End JsString.

(* ================================================================== *)
(** ** Room-name derivation ([handleCreateRoom], "Slugify the name") *)
(* ================================================================== *)

Section SlugDerivation.

(** The derivation over any lower-casing and trimming functions; the
    gateway's own [slugify] below instantiates them. *)
Variables lower strip : string -> string.

Definition slugifyWith (name : string) : string :=
  JsString.stripEdgeDashes (JsString.replaceRuns false (strip (lower name))).

End SlugDerivation.

(** [name.toLowerCase().trim().replace(/[^a-z0-9]+/g, '-').replace(/^-|-$/g, '')] *)
Definition slugify (name : string) : string :=
  slugifyWith JsString.toLowerCase JsString.trim name.


(* ================================================================== *)
(** ** The built-in [Map], keyed by strings, in insertion order *)
(* ================================================================== *)

Module JsMap.

Definition t (V : Type) : Type := list (string * V).

Definition empty {V : Type} : t V := [].

Fixpoint get {V : Type} (k : string) (m : t V) : option V :=
  match m with
  | [] => None
  | (k', v) :: m' => if String.eqb k k' then Some v else get k m'
  end.

Definition has {V : Type} (k : string) (m : t V) : bool :=
  match get k m with Some _ => true | None => false end.

(** [m.set(k, v)]: an existing key keeps its place, a new key goes last. *)
Fixpoint set {V : Type} (k : string) (v : V) (m : t V) : t V :=
  match m with
  | [] => [(k, v)]
  | (k', v') :: m' =>
      if String.eqb k k' then (k, v) :: m' else (k', v') :: set k v m'
  end.

(** [m.delete(k)]. *)
Fixpoint delete {V : Type} (k : string) (m : t V) : t V :=
  match m with
  | [] => []
  | (k', v') :: m' =>
      if String.eqb k k' then delete k m' else (k', v') :: delete k m'
  end.

(** [m.clear()]. *)
Definition clear {V : Type} (m : t V) : t V := [].

End JsMap.

(* ================================================================== *)
(** ** JSON values, messages, registry entries *)
(* ================================================================== *)

#[local] Set Warnings "-register-all".

Inductive JValue : Type :=
| JNull
| JBool (b : bool)
| JNum (n : Z)
| JStr (s : string)
| JArr (items : list JValue)
| JObj (fields : list (string * JValue)).

Fixpoint lookupField (key : string) (fields : list (string * JValue)) : option JValue :=
  match fields with
  | [] => None
  | (k, v) :: rest => if String.eqb key k then Some v else lookupField key rest
  end.

(** [const { key } = value] for the keys ["text"] and ["name"]: [None] is the
    TypeError raised on [null], [Some None] is [undefined] (a missing field,
    or a primitive or an array, none of which has such a property). *)
Definition destructure (key : string) (value : JValue) : option (option JValue) :=
  match value with
  | JNull => None
  | JObj fields => Some (lookupField key fields)
  | _ => Some None
  end.

(** JavaScript truthiness; [None] is [undefined]. *)
Definition truthy (v : option JValue) : bool :=
  match v with
  | None => false
  | Some JNull => false
  | Some (JBool b) => b
  | Some (JNum n) => negb (Z.eqb n 0)
  | Some (JStr s) => negb (String.eqb s "")
  | Some (JArr _) => true
  | Some (JObj _) => true
  end.

(** [typeof v === 'string'] *)
Definition typeofString (v : option JValue) : bool :=
  match v with Some (JStr _) => true | _ => false end.

(** The value itself, once [typeof v === 'string'] is known. *)
Definition stringOf (v : option JValue) : string :=
  match v with Some (JStr s) => s | _ => "" end.

(** The double quote inside an error message, and the line feed. *)
Definition quote : string := String (ascii_of_nat 34) EmptyString.

Definition newline : string := String (ascii_of_nat 10) EmptyString.

(** A template literal: the concatenation of its parts. *)
Definition template (parts : list string) : string := String.concat "" parts.

(** How a template literal renders a non-negative integer. *)
Definition decimal (n : N) : string := NilZero.string_of_uint (N.to_uint n).

(** [NewMessage], and the object literal [sendMessage] builds. *)
Record Message : Type := {
  id : string;
  chat_jid : string;
  sender : string;
  sender_name : string;
  content : string;
  timestamp : string;
  is_from_me : bool;
  is_bot_message : bool
}.

Definition jsonOfMessage (m : Message) : JValue :=
  JObj [ ("id", JStr (id m));
         ("chat_jid", JStr (chat_jid m));
         ("sender", JStr (sender m));
         ("sender_name", JStr (sender_name m));
         ("content", JStr (content m));
         ("timestamp", JStr (timestamp m));
         ("is_from_me", JBool (is_from_me m));
         ("is_bot_message", JBool (is_bot_message m)) ].

Record MessageMetadata : Type := { senderName : option string }.

Record RegisteredGroup : Type := {
  name : string;
  folder : string;
  trigger : string;
  added_at : string;
  requiresTrigger : option bool
}.

(** What [registeredGroups()] returns: [Record<string, RegisteredGroup>]. *)
Definition Registry : Type := list (string * RegisteredGroup).

Fixpoint groupAt (jid : string) (groups : Registry) : option RegisteredGroup :=
  match groups with
  | [] => None
  | (k, g) :: rest => if String.eqb jid k then Some g else groupAt jid rest
  end.

(** The readings of the clock and of the random source that one call makes:
    [Date.now()], [crypto.randomBytes(4).toString('hex')] and
    [new Date().toISOString()]. *)
Record Clock : Type := {
  dateNow : N;
  randomHex : string;
  isoNow : string
}.

(* ================================================================== *)
(** ** Handles, the platform, observable events *)
(* ================================================================== *)

(** An [http.ServerResponse] object. *)
Definition Res : Type := nat.

(** What [setInterval] returns. *)
Definition Timer : Type := nat.

(** What becomes of a chunk handed to [res.write]: the stream takes it, or
    it cannot (its connection is already gone).  Node reports the second
    case through the result of [write] and an ['error'] event, not by
    raising; the gateway looks at neither. *)
Inductive WriteOutcome : Type := Taken | Failed.

Record Platform : Type := {
  ASSISTANT_NAME : string;
  JSON_parse : string -> option JValue;
  getRecentMessages : string -> N -> JValue;
  writeOutcome : Res -> WriteOutcome
}.

Definition Headers : Type := list (string * string).

(** Text given to [res.write] or [res.end]. *)
Inductive Payload : Type :=
| Text (s : string)
| Json (v : JValue)          (* JSON.stringify(v) *)
| MessageEvent (v : JValue). (* `event: message\ndata: ${JSON.stringify(v)}\n\n` *)

Inductive Event : Type :=
| WriteHead (res : Res) (status : nat) (headers : Headers)
| Write (res : Res) (chunk : Payload) (outcome : WriteOutcome)
| EndResponse (res : Res) (body : option Payload)
| OnClose (res : Res)
| DestroyRequest (res : Res)
| SetInterval (timer : Timer) (res : Res) (ms : N)
| ClearInterval (timer : Timer)
| StoreMessageDirect (m : Message)
| OnChatMetadata (jid stamp title channel : string) (isGroup : bool)
| OnMessage (jid : string) (m : Message)
| OnRegisterGroup (jid : string) (g : RegisteredGroup)
| Listen (port : nat)
| CloseServer.

Definition Trace : Type := list Event.

Record SseClient : Type := {
  res : Res;
  keepAliveTimer : Timer
}.

(** [c === client]: the two are the same object exactly when they hold the
    same response and the same timer, each of which the runtime creates
    once. *)
Definition sameClient (c client : SseClient) : bool :=
  Nat.eqb (res c) (res client) && Nat.eqb (keepAliveTimer c) (keepAliveTimer client).

(** The fields of [WebChannel]; [onMessage], [onChatMetadata] and
    [onRegisterGroup] show as events, [registeredGroups] as an argument. *)
Record WebChannel : Type := {
  server : bool;                          (* this.server !== null *)
  clientsByRoom : JsMap.t (list SseClient);
  port : nat;
  token : string;
  connected : bool;
  hasOnRegisterGroup : bool               (* opts.onRegisterGroup given *)
}.

Definition withClients (ch : WebChannel) (m : JsMap.t (list SseClient)) : WebChannel :=
  {| server := server ch; clientsByRoom := m; port := port ch; token := token ch;
     connected := connected ch; hasOnRegisterGroup := hasOnRegisterGroup ch |}.

Definition withConnected (ch : WebChannel) (b : bool) : WebChannel :=
  {| server := server ch; clientsByRoom := clientsByRoom ch; port := port ch;
     token := token ch; connected := b; hasOnRegisterGroup := hasOnRegisterGroup ch |}.

Definition withServer (ch : WebChannel) : WebChannel :=
  {| server := true; clientsByRoom := clientsByRoom ch; port := port ch;
     token := token ch; connected := connected ch;
     hasOnRegisterGroup := hasOnRegisterGroup ch |}.

(** [new WebChannel(opts)] *)
Definition newWebChannel (optPort : nat) (optToken : string) (optOnRegisterGroup : bool)
  : WebChannel :=
  {| server := false; clientsByRoom := JsMap.empty; port := optPort; token := optToken;
     connected := false; hasOnRegisterGroup := optOnRegisterGroup |}.

(** [this.clientsByRoom.get(jid) || []] *)
Definition clientsOf (ch : WebChannel) (jid : string) : list SseClient :=
  match JsMap.get jid (clientsByRoom ch) with
  | Some clients => clients
  | None => []
  end.

Definition jsonHeaders : Headers := [("Content-Type", "application/json")].

Definition sseHeaders : Headers :=
  [ ("Content-Type", "text/event-stream");
    ("Cache-Control", "no-cache");
    ("Connection", "keep-alive");
    ("X-Accel-Buffering", "no") ].

(** [res.writeHead(status, json); res.end(JSON.stringify(body))] *)
Definition respondJson (r : Res) (status : nat) (body : JValue) : Trace :=
  [ WriteHead r status jsonHeaders; EndResponse r (Some (Json body)) ].

Definition errorBody (message : string) : JValue := JObj [("error", JStr message)].

(** The ['data'] listener of both body-reading handlers:
    [body += chunk.toString()], where [chunks] holds the text that each
    chunk decodes to on its own (see [chunkTexts]); past the limit the
    request is refused and destroyed, so that no further chunk and no
    ['end'] reaches the handler ([None]). *)
Fixpoint receiveBody (limit : N) (body : string) (chunks : list string) : option string :=
  match chunks with
  | [] => Some body
  | chunk :: rest =>
      let body' := String.append body chunk in
      if (limit <? N.of_nat (String.length body'))%N then None
      else receiveBody limit body' rest
  end.

Definition payloadTooLarge (r : Res) : Trace :=
  (respondJson r 413 (errorBody "Payload too large") ++ [DestroyRequest r])%list.

(* ================================================================== *)
(** ** The methods of [WebChannel] *)
(* ================================================================== *)

Section Gateway.

Variable P : Platform.

(** [res.write(chunk)] *)
Definition write (r : Res) (chunk : Payload) : Event :=
  Write r chunk (writeOutcome P r).

(** [connect]; [listening] tells whether [listen] called back (otherwise
    the ['error'] listener rejects and [connected] stays as it was). *)
Definition connect (ch : WebChannel) (listening : bool) : WebChannel * Trace :=
  let ch1 := withServer ch in
  (if listening then withConnected ch1 true else ch1, [Listen (port ch)]).

(** The loop shared by [sendMessage] and [handleSend]:
    [for (const client of clients) client.res.write(`event: message...`)]. *)
Definition broadcast (ch : WebChannel) (jid : string) (msg : Message) : Trace :=
  map (fun client => write (res client) (MessageEvent (jsonOfMessage msg)))
      (clientsOf ch jid).

(** [metadata?.senderName ?? fallback] *)
Definition senderNameOr (metadata : option MessageMetadata) (fallback : string) : string :=
  match metadata with
  | Some md => match senderName md with Some n => n | None => fallback end
  | None => fallback
  end.

(** The object literal of [sendMessage]. *)
Definition botMessage (clk : Clock) (jid text : string) (metadata : option MessageMetadata)
  : Message :=
  {| id := template ["bot-"; decimal (dateNow clk); "-"; randomHex clk];
     chat_jid := jid;
     sender := senderNameOr metadata "bot";
     sender_name := senderNameOr metadata (ASSISTANT_NAME P);
     content := text;
     timestamp := isoNow clk;
     is_from_me := false;
     is_bot_message := true |}.

Definition sendMessage (ch : WebChannel) (clk : Clock) (jid text : string)
  (metadata : option MessageMetadata) : WebChannel * Trace :=
  if negb (JsString.startsWith "web:" jid) then (ch, [])
  else
    let msg := botMessage clk jid text metadata in
    (ch, StoreMessageDirect msg :: broadcast ch jid msg).

Definition isConnected (ch : WebChannel) : bool := connected ch.

Definition ownsJid (jid : string) : bool := JsString.startsWith "web:" jid.

Definition endClient (client : SseClient) : Trace :=
  [ ClearInterval (keepAliveTimer client); EndResponse (res client) None ].

Definition disconnect (ch : WebChannel) : WebChannel * Trace :=
  let ch1 := withConnected ch false in
  let ended := flat_map (fun entry => flat_map endClient (snd entry)) (clientsByRoom ch1) in
  (withClients ch1 (JsMap.clear (clientsByRoom ch1)),
   (ended ++ (if server ch then [CloseServer] else []))%list).

Definition setTyping (ch : WebChannel) (jid : string) (isTyping : bool)
  : WebChannel * Trace := (ch, []).

(** [authenticate], on the [token] query parameter and the [Authorization]
    header of the request. *)
Definition authenticate (ch : WebChannel) (queryToken authHeader : option string) : bool :=
  match queryToken with
  | Some q => String.eqb q (token ch)
  | None => false
  end
  || match authHeader with
     | Some a =>
         JsString.startsWith "Bearer " a
         && String.eqb (String.substring 7 (String.length a - 7) a) (token ch)
     | None => false
     end.

(** The element [handleListRooms] makes of one registry entry. *)
Definition roomListing (entry : string * RegisteredGroup) : JValue :=
  let (jid, group) := entry in
  JObj [ ("slug", JStr (String.substring 4 (String.length jid - 4) jid));
         ("name", JStr (name group));
         ("jid", JStr jid);
         ("added_at", JStr (added_at group)) ].

Definition handleListRooms (ch : WebChannel) (groups : Registry) (r : Res)
  : WebChannel * Trace :=
  let rooms :=
    map roomListing (filter (fun entry => JsString.startsWith "web:" (fst entry)) groups) in
  (ch, respondJson r 200 (JArr rooms)).

(** The ['end'] listener of [handleCreateRoom]. *)
Definition createRoomEnd (ch : WebChannel) (groups : Registry) (clk : Clock) (r : Res)
  (body : string) : WebChannel * Trace :=
  match JSON_parse P body with
  | None => (ch, respondJson r 400 (errorBody "Invalid JSON"))
  | Some parsed =>
      match destructure "name" parsed with
      | None => (ch, respondJson r 400 (errorBody "Invalid JSON"))
      | Some nameField =>
          if negb (truthy nameField) || negb (typeofString nameField) then
            (ch, respondJson r 400
                   (errorBody (template ["Missing "; quote; "name"; quote; " field"])))
          else
            let name := stringOf nameField in
            let slug := slugify name in
            if negb (truthy (Some (JStr slug))) then
              (ch, respondJson r 400 (errorBody "Invalid room name"))
            else
              let jid := template ["web:"; slug] in
              match groupAt jid groups with
              | Some _ =>
                  (ch, respondJson r 409
                         (JObj [("error", JStr "Room already exists"); ("slug", JStr slug)]))
              | None =>
                  let group :=
                    {| name := name;
                       folder := template ["web-"; slug];
                       trigger := template ["@"; ASSISTANT_NAME P];
                       added_at := isoNow clk;
                       requiresTrigger := Some false |} in
                  (ch, [ OnRegisterGroup jid group;
                         OnChatMetadata jid (added_at group) name "web" false;
                         WriteHead r 201 jsonHeaders;
                         EndResponse r (Some (Json (JObj [ ("slug", JStr slug);
                                                           ("name", JStr name);
                                                           ("jid", JStr jid) ]))) ])
              end
      end
  end.

Definition handleCreateRoom (ch : WebChannel) (groups : Registry) (clk : Clock) (r : Res)
  (chunks : list string) : WebChannel * Trace :=
  if negb (hasOnRegisterGroup ch) then
    (ch, respondJson r 500 (errorBody "Room creation not available"))
  else
    match receiveBody 10000%N "" chunks with
    | None => (ch, payloadTooLarge r)
    | Some body => createRoomEnd ch groups clk r body
    end.

(** [handleSse]; [timer] is the object that its [setInterval] call returns. *)
Definition handleSse (ch : WebChannel) (r : Res) (timer : Timer) (room : string)
  : WebChannel * Trace :=
  let jid := template ["web:"; room] in
  let client := {| res := r; keepAliveTimer := timer |} in
  let m0 := clientsByRoom ch in
  let m1 := if negb (JsMap.has jid m0) then JsMap.set jid [] m0 else m0 in
  let m2 :=
    match JsMap.get jid m1 with
    | Some clients => JsMap.set jid (clients ++ [client])%list m1   (* push *)
    | None => m1
    end in
  (withClients ch m2,
   [ WriteHead r 200 sseHeaders;
     write r (Text (template [":ok"; newline; newline]));
     SetInterval timer r 30000%N;
     OnClose r ]).

(** The callback given to [setInterval] by [handleSse]. *)
Definition keepAlive (ch : WebChannel) (client : SseClient) : WebChannel * Trace :=
  (ch, [ write (res client) (Text (template [":ping"; newline; newline])) ]).

(** The ['close'] listener that [handleSse] puts on the response of the
    client it registered under [jid]. *)
Definition sseClosed (ch : WebChannel) (jid : string) (client : SseClient)
  : WebChannel * Trace :=
  let m :=
    match JsMap.get jid (clientsByRoom ch) with
    | Some clients =>
        let filtered := filter (fun c => negb (sameClient c client)) clients in
        if Nat.eqb (List.length filtered) 0 then JsMap.delete jid (clientsByRoom ch)
        else JsMap.set jid filtered (clientsByRoom ch)
    | None => clientsByRoom ch
    end in
  (withClients ch m, [ ClearInterval (keepAliveTimer client) ]).

(** The object literal [msg] of [handleSend]. *)
Definition userMessage (clk : Clock) (jid text : string) : Message :=
  {| id := template ["web-"; decimal (dateNow clk); "-"; randomHex clk];
     chat_jid := jid;
     sender := "user";
     sender_name := "You";
     content := JsString.trim text;
     timestamp := isoNow clk;
     is_from_me := true;
     is_bot_message := false |}.

(** The ['end'] listener of [handleSend]. *)
Definition sendEnd (ch : WebChannel) (groups : Registry) (clk : Clock) (r : Res)
  (jid body : string) : WebChannel * Trace :=
  match JSON_parse P body with
  | None => (ch, respondJson r 400 (errorBody "Invalid JSON"))
  | Some parsed =>
      match destructure "text" parsed with
      | None => (ch, respondJson r 400 (errorBody "Invalid JSON"))
      | Some textField =>
          if negb (truthy textField) || negb (typeofString textField) then
            (ch, respondJson r 400
                   (errorBody (template ["Missing "; quote; "text"; quote; " field"])))
          else
            let text := stringOf textField in
            match groupAt jid groups with
            | None => (ch, respondJson r 404 (errorBody "Room not found"))
            | Some group =>
                let msg := userMessage clk jid text in
                (ch,
                 ([ OnChatMetadata jid (timestamp msg) (name group) "web" false;
                    OnMessage jid msg ]
                  ++ broadcast ch jid msg
                  ++ respondJson r 200
                       (JObj [("ok", JBool true); ("message", jsonOfMessage msg)]))%list)
            end
      end
  end.

Definition handleSend (ch : WebChannel) (groups : Registry) (clk : Clock) (r : Res)
  (room : string) (chunks : list string) : WebChannel * Trace :=
  let jid := template ["web:"; room] in
  match receiveBody 100000%N "" chunks with
  | None => (ch, payloadTooLarge r)
  | Some body => sendEnd ch groups clk r jid body
  end.

Definition handleHistory (ch : WebChannel) (r : Res) (room : string) : WebChannel * Trace :=
  let jid := template ["web:"; room] in
  let messages := getRecentMessages P jid 50%N in
  (ch, respondJson r 200 messages).

End Gateway.

(* ================================================================== *)
(** ** The gateway at run time *)
(* ================================================================== *)

(** The channel together with the runtime's supply of fresh objects: every
    incoming request gets a new response object, every [setInterval] call
    a new timer. *)
Record World : Type := {
  channel : WebChannel;
  nextHandle : nat
}.

(** What can happen to a channel: the calls of the orchestrator, the
    requests the router hands to a handler, and the callbacks of the
    runtime (a response closing, a keepalive interval elapsing). *)
Inductive Op : Type :=
| CallConnect (listening : bool)
| CallSendMessage (clk : Clock) (jid text : string) (metadata : option MessageMetadata)
| CallDisconnect
| CallSetTyping (jid : string) (isTyping : bool)
| GetEvents (room : string)
| PostSend (groups : Registry) (clk : Clock) (room : string) (chunks : list string)
| GetHistory (room : string)
| GetRooms (groups : Registry)
| PostRooms (groups : Registry) (clk : Clock) (chunks : list string)
| ResponseClosed (jid : string) (client : SseClient)
| IntervalElapsed (client : SseClient).

Definition step (P : Platform) (w : World) (op : Op) : World * Trace :=
  let ch := channel w in
  let r := nextHandle w in
  let same (out : WebChannel * Trace) : World * Trace :=
    ({| channel := fst out; nextHandle := nextHandle w |}, snd out) in
  let fresh (n : nat) (out : WebChannel * Trace) : World * Trace :=
    ({| channel := fst out; nextHandle := nextHandle w + n |}, snd out) in
  match op with
  | CallConnect listening => same (connect ch listening)
  | CallSendMessage clk jid text metadata => same (sendMessage P ch clk jid text metadata)
  | CallDisconnect => same (disconnect ch)
  | CallSetTyping jid isTyping => same (setTyping ch jid isTyping)
  | GetEvents room => fresh 2 (handleSse P ch r (S r) room)
  | PostSend groups clk room chunks => fresh 1 (handleSend P ch groups clk r room chunks)
  | GetHistory room => fresh 1 (handleHistory P ch r room)
  | GetRooms groups => fresh 1 (handleListRooms ch groups r)
  | PostRooms groups clk chunks => fresh 1 (handleCreateRoom P ch groups clk r chunks)
  | ResponseClosed jid client => same (sseClosed ch jid client)
  | IntervalElapsed client => same (keepAlive P ch client)
  end.

Fixpoint run (P : Platform) (w : World) (ops : list Op) : World * Trace :=
  match ops with
  | [] => (w, [])
  | op :: rest =>
      let (w1, t1) := step P w op in
      let (w2, t2) := run P w1 rest in
      (w2, (t1 ++ t2)%list)
  end.

Definition start (ch : WebChannel) : World := {| channel := ch; nextHandle := 0 |}.

(** The chunks written to response [r], in order. *)
Fixpoint writesTo (r : Res) (tr : Trace) : list Payload :=
  match tr with
  | [] => []
  | Write r' chunk _ :: rest =>
      if Nat.eqb r' r then chunk :: writesTo r rest else writesTo r rest
  | _ :: rest => writesTo r rest
  end.

(** Every [res.write] call of a trace. *)
Fixpoint writes (tr : Trace) : list (Res * Payload) :=
  match tr with
  | [] => []
  | Write r chunk _ :: rest => (r, chunk) :: writes rest
  | _ :: rest => writes rest
  end.

(** The subscriber-table invariant: no key is mapped to an empty list. *)
Definition noEmptyRoom (ch : WebChannel) : Prop :=
  forall jid clients, JsMap.get jid (clientsByRoom ch) = Some clients -> clients <> [].

(** A platform for closed examples: [JSON.parse] knows the one body [text]
    and reads it as [parsed], the store is empty, and the connection behind
    response 0 is broken. *)
Definition samplePlatform (text : string) (parsed : JValue) : Platform :=
  {| ASSISTANT_NAME := "Andy";
     JSON_parse := fun body => if String.eqb body text then Some parsed else None;
     getRecentMessages := fun _ _ => JArr [];
     writeOutcome := fun r => if Nat.eqb r 0 then Failed else Taken |}.

(** The text of the JSON object with the single string field [key]. *)
Definition jsonBody (key value : string) : string :=
  template ["{"; quote; key; quote; ":"; quote; value; quote; "}"].

Definition sampleClock : Clock :=
  {| dateNow := 1700000000000%N; randomHex := "00c0ffee";
     isoNow := "2024-01-01T00:00:00.000Z" |}.

Definition sampleGroup (title slug : string) : RegisteredGroup :=
  {| name := title; folder := template ["web-"; slug]; trigger := "@Andy";
     added_at := "2024-01-01T00:00:00.000Z"; requiresTrigger := Some false |}.

Definition sampleChannel : WebChannel := newWebChannel 0 "test-token-123" true.

(** The string a request body carries in its field [key]: [None] when the
    body is not JSON text, is [null], has no such field, or holds something
    other than a string there. *)
Definition submittedField (P : Platform) (key body : string) : option string :=
  match JSON_parse P body with
  | Some parsed =>
      match destructure key parsed with
      | Some (Some (JStr s)) => Some s
      | _ => None
      end
  | None => None
  end.

(** What [handleSend] does with an accepted message [msg] of room [jid]. *)
Definition acceptedSend (P : Platform) (ch : WebChannel) (r : Res) (jid : string)
  (group : RegisteredGroup) (msg : Message) : Trace :=
  ([ OnChatMetadata jid (timestamp msg) (name group) "web" false; OnMessage jid msg ]
   ++ broadcast P ch jid msg
   ++ respondJson r 200 (JObj [("ok", JBool true); ("message", jsonOfMessage msg)]))%list.

(** The events by which a handler reaches the store, the orchestrator, the
    registry or a subscriber. *)
Definition isSideEffect (e : Event) : bool :=
  match e with
  | Write _ _ _ | StoreMessageDirect _ | OnChatMetadata _ _ _ _ _
  | OnMessage _ _ | OnRegisterGroup _ _ => true
  | _ => false
  end.

(** The platform [P] with other fates for the chunks handed to
    [res.write], and a trace with those fates blanked out: the calls that
    were made, whatever became of the chunks. *)
Definition withOutcome (P : Platform) (fate : Res -> WriteOutcome) : Platform :=
  {| ASSISTANT_NAME := ASSISTANT_NAME P;
     JSON_parse := JSON_parse P;
     getRecentMessages := getRecentMessages P;
     writeOutcome := fate |}.

Definition forgetOutcome (e : Event) : Event :=
  match e with
  | Write r chunk _ => Write r chunk Taken
  | _ => e
  end.

(** What one step can do to the subscriber table. *)
Inductive TableChange (P : Platform) (w : World) (w' : World) : Prop :=
| Unchanged :
    clientsByRoom (channel w') = clientsByRoom (channel w) ->
    nextHandle w <= nextHandle w' -> TableChange P w w'
| Subscribed (room : string) :
    channel w' = fst (handleSse P (channel w) (nextHandle w) (S (nextHandle w)) room) ->
    nextHandle w' = nextHandle w + 2 -> TableChange P w w'
| Unsubscribed (jid : string) (client : SseClient) :
    channel w' = fst (sseClosed (channel w) jid client) ->
    nextHandle w' = nextHandle w -> TableChange P w w'
| Cleared :
    clientsByRoom (channel w') = [] ->
    nextHandle w' = nextHandle w -> TableChange P w w'.

(** Every registered response object was handed out by the runtime, sits in
    one room only, and sits there once; and every room with a subscriber
    has an identifier of this gateway. *)
Definition oneRoomEach (w : World) : Prop :=
  (forall jid c, In c (clientsOf (channel w) jid) -> res c < nextHandle w)
  /\ (forall j1 j2 c1 c2,
        In c1 (clientsOf (channel w) j1) -> In c2 (clientsOf (channel w) j2) ->
        res c1 = res c2 -> j1 = j2)
  /\ (forall jid, NoDup (map res (clientsOf (channel w) jid)))
  /\ (forall jid c, In c (clientsOf (channel w) jid) -> JsString.startsWith "web:" jid = true).

(** The shape of a derived identifier: only [[a-z0-9]] and single dashes.
    [prevDash] tells that the code unit before [s] was a dash. *)
Fixpoint collapsed (prevDash : bool) (s : string) : bool :=
  match s with
  | EmptyString => true
  | String c r =>
      if JsString.isLowerAlnum c then collapsed false r
      else JsString.isDash c && negb prevDash && collapsed true r
  end.

Fixpoint allSlugChars (s : string) : bool :=
  match s with
  | EmptyString => true
  | String c r => (JsString.isLowerAlnum c || JsString.isDash c) && allSlugChars r
  end.

Definition startsWithDash (s : string) : bool :=
  match s with
  | String c _ => JsString.isDash c
  | EmptyString => false
  end.

Fixpoint endsWithDash (s : string) : bool :=
  match s with
  | EmptyString => false
  | String c EmptyString => JsString.isDash c
  | String _ r => endsWithDash r
  end.

(* ================================================================== *)
(** ** The request router ([handleRequest], [extractRoomSlug]) *)
(* ================================================================== *)

(** What the router reads of a request: [req.method], the [pathname] and
    the [token] parameter of [new URL(req.url || '/', ...)], the
    [Authorization] header, and the chunks of the body. *)
Record Request : Type := {
  reqMethod : string;
  reqPathname : string;
  reqQueryToken : option string;
  reqAuthorization : option string;
  reqChunks : list string
}.

(** Functions of the platform and of [web-ui.ts] that the router calls:
    [decodeURIComponent] ([None] when it raises URIError),
    [encodeURIComponent], and the two page templates. *)
Record WebPlatform : Type := {
  decodeURIComponent : string -> option string;
  encodeURIComponent : string -> string;
  getRoomListHtml : string -> string;
  getWebUiHtml : string -> string -> string
}.

(** What a request does: the router's own [res.setHeader] calls, and the
    events of the branch it takes. *)
Inductive RequestEvent : Type :=
| SetHeader (res : Res) (field value : string)
| Handled (e : Event).

(** [Some rest] when [s] is [p] followed by [rest]. *)
Fixpoint stripPrefix (p s : string) : option string :=
  match p with
  | EmptyString => Some s
  | String a p' =>
      match s with
      | EmptyString => None
      | String b s' => if Ascii.eqb a b then stripPrefix p' s' else None
      end
  end.

Definition isSlash (c : ascii) : bool := (JsString.code c =? 47)%nat.

(** The longest run of [[^/]] at the head of [s], and what follows it. *)
Fixpoint spanSegment (s : string) : string * string :=
  match s with
  | EmptyString => (EmptyString, EmptyString)
  | String c r =>
      if isSlash c then (EmptyString, s)
      else let (seg, rest) := spanSegment r in (String c seg, rest)
  end.

(** [s.match(/^<p>([^/]+)/)], or with [toEnd] [s.match(/^<p>([^/]+)$/)],
    for a literal prefix [p]: the captured group. *)
Definition matchSegment (p : string) (toEnd : bool) (s : string) : option string :=
  match stripPrefix p s with
  | None => None
  | Some rest =>
      let (seg, tail) := spanSegment rest in
      if String.eqb seg "" then None
      else if toEnd && negb (String.eqb tail "") then None
      else Some seg
  end.

(** [s.replace(pat, '')] for a string pattern: the first occurrence of
    [pat] goes. *)
Fixpoint removeFirst (pat s : string) : string :=
  match stripPrefix pat s with
  | Some rest => rest
  | None =>
      match s with
      | EmptyString => EmptyString
      | String c s' => String c (removeFirst pat s')
      end
  end.

(** [extractRoomSlug]: [None] when [decodeURIComponent] raises,
    [Some None] for [null]. *)
Definition extractRoomSlug (W : WebPlatform) (pathname : string) : option (option string) :=
  match matchSegment "/api/rooms/" false pathname with
  | Some seg => option_map Some (decodeURIComponent W seg)
  | None =>
      match matchSegment "/r/" false pathname with
      | Some seg => option_map Some (decodeURIComponent W seg)
      | None => Some None
      end
  end.

(** Truthiness of a [string | null]. *)
Definition truthyString (s : option string) : bool :=
  match s with
  | Some t => negb (String.eqb t "")
  | None => false
  end.

(** The text of the 401 answer of the two page routes.  Its dash is U+2014,
    beyond the code units this model gives a meaning to; the literal holds
    it as it is written in the source file, and nothing looks inside. *)
Definition unauthorizedHint : string :=
  "Unauthorized — append ?token=<your-token> to the URL".

(** [res.writeHead(status, { 'Content-Type': ctype }); res.end(body)] *)
Definition respondText (r : Res) (status : nat) (ctype body : string) : Trace :=
  [ WriteHead r status [("Content-Type", ctype)]; EndResponse r (Some (Text body)) ].

Definition corsHeaders (r : Res) : list RequestEvent :=
  [ SetHeader r "Access-Control-Allow-Origin" "*";
    SetHeader r "Access-Control-Allow-Methods" "GET, POST, OPTIONS";
    SetHeader r "Access-Control-Allow-Headers" "Content-Type, Authorization" ].

(** The CORS headers, then the events of the branch taken. *)
Definition routed (r : Res) (out : WebChannel * Trace)
  : option (WebChannel * list RequestEvent) :=
  Some (fst out, (corsHeaders r ++ map Handled (snd out))%list).

Definition notFound (r : Res) (ch : WebChannel) : option (WebChannel * list RequestEvent) :=
  routed r (ch, respondJson r 404 (errorBody "Not found")).

(** The second half of [handleRequest], from "All API routes require auth"
    on. *)
Definition apiRoutes (W : WebPlatform) (P : Platform) (ch : WebChannel)
  (groups : Registry) (clk : Clock) (r : Res) (timer : Timer) (req : Request)
  : option (WebChannel * list RequestEvent) :=
  let pathname := reqPathname req in
  let method := reqMethod req in
  if JsString.startsWith "/api/" pathname
     && negb (authenticate ch (reqQueryToken req) (reqAuthorization req)) then
    routed r (ch, respondJson r 401 (errorBody "Unauthorized"))
  else if String.eqb pathname "/api/rooms" && String.eqb method "GET" then
    routed r (handleListRooms ch groups r)
  else if String.eqb pathname "/api/rooms" && String.eqb method "POST" then
    routed r (handleCreateRoom P ch groups clk r (reqChunks req))
  else
    match extractRoomSlug W pathname with
    | None => None
    | Some None => notFound r ch
    | Some (Some roomSlug) =>
        if truthyString (Some roomSlug) && JsString.startsWith "/api/rooms/" pathname then
          let suffix :=
            removeFirst (template ["/api/rooms/"; encodeURIComponent W roomSlug]) pathname in
          if String.eqb suffix "/events" && String.eqb method "GET" then
            routed r (handleSse P ch r timer roomSlug)
          else if String.eqb suffix "/send" && String.eqb method "POST" then
            routed r (handleSend P ch groups clk r roomSlug (reqChunks req))
          else if String.eqb suffix "/history" && String.eqb method "GET" then
            routed r (handleHistory P ch r roomSlug)
          else notFound r ch
        else notFound r ch
    end.

(** [handleRequest] once [new URL] has returned (the call itself is in
    [handleRequestFromUrl]); [r] is the response object of the request and
    [timer] the timer that [setInterval] returns if [handleSse] runs.
    [None]: a URIError of [decodeURIComponent] leaves the function. *)
Definition handleRequest (W : WebPlatform) (P : Platform) (ch : WebChannel)
  (groups : Registry) (clk : Clock) (r : Res) (timer : Timer) (req : Request)
  : option (WebChannel * list RequestEvent) :=
  let pathname := reqPathname req in
  let method := reqMethod req in
  let authenticated := authenticate ch (reqQueryToken req) (reqAuthorization req) in
  if String.eqb method "OPTIONS" then
    routed r (ch, [ WriteHead r 204 []; EndResponse r None ])
  else if String.eqb pathname "/" && String.eqb method "GET" then
    if negb authenticated then
      routed r (ch, respondText r 401 "text/plain" unauthorizedHint)
    else
      routed r (ch, respondText r 200 "text/html; charset=utf-8"
                      (getRoomListHtml W (token ch)))
  else
    match matchSegment "/r/" true pathname, String.eqb method "GET" with
    | Some seg, true =>
        if negb authenticated then
          routed r (ch, respondText r 401 "text/plain" unauthorizedHint)
        else
          match decodeURIComponent W seg with
          | None => None
          | Some room =>
              let jid := template ["web:"; room] in
              match groupAt jid groups with
              | None => routed r (ch, respondText r 404 "text/plain" "Room not found")
              | Some _ =>
                  routed r (ch, respondText r 200 "text/html; charset=utf-8"
                                  (getWebUiHtml W (token ch) room))
              end
          end
    | _, _ => apiRoutes W P ch groups clk r timer req
    end.

(* ================================================================== *)
(** ** [escapeHtml] of [web-ui.ts] *)
(* ================================================================== *)

(** [s.replace(/c/g, repl)] for a single code unit [c]. *)
Fixpoint replaceChar (c : ascii) (repl : string) (s : string) : string :=
  match s with
  | EmptyString => EmptyString
  | String a r =>
      if Ascii.eqb a c then String.append repl (replaceChar c repl r)
      else String a (replaceChar c repl r)
  end.

Definition escapeHtml (s : string) : string :=
  replaceChar (ascii_of_nat 34) "&quot;"
    (replaceChar ">"%char "&gt;"
       (replaceChar "<"%char "&lt;"
          (replaceChar "&"%char "&amp;" s))).

(** A string that holds none of [<], [>] and the double quote. *)
Fixpoint markupFree (s : string) : bool :=
  match s with
  | EmptyString => true
  | String a r =>
      negb (Ascii.eqb a "<"%char) && negb (Ascii.eqb a ">"%char)
      && negb (Ascii.eqb a (ascii_of_nat 34)) && markupFree r
  end.

(* ================================================================== *)
(** ** Notions used to state the further properties *)
(* ================================================================== *)

(** The concatenation of the chunks of a body. *)
Fixpoint joinChunks (chunks : list string) : string :=
  match chunks with
  | [] => EmptyString
  | chunk :: rest => String.append chunk (joinChunks rest)
  end.

(** An ASCII letter or digit. *)
Definition isAsciiAlnum (c : ascii) : bool :=
  JsString.between 65 90 c || JsString.between 97 122 c || JsString.between 48 57 c.

Fixpoint hasAsciiAlnum (s : string) : bool :=
  match s with
  | EmptyString => false
  | String c r => isAsciiAlnum c || hasAsciiAlnum r
  end.

Fixpoint hasLowerAlnum (s : string) : bool :=
  match s with
  | EmptyString => false
  | String c r => JsString.isLowerAlnum c || hasLowerAlnum r
  end.

(** The events of a request that reach the store, a callback or a
    subscriber. *)
Definition requestSideEffects (evs : list RequestEvent) : list RequestEvent :=
  filter (fun ev => match ev with Handled e => isSideEffect e | SetHeader _ _ _ => false end) evs.

(** Response [r0] is registered nowhere and will never be handed out again. *)
Definition retired (r0 : Res) (w : World) : Prop :=
  r0 < nextHandle w
  /\ forall jid c, In c (clientsOf (channel w) jid) -> res c <> r0.

(** The object by which [handleListRooms] shows the room [web:<slug>]. *)
Definition listedRoom (slug : string) (group : RegisteredGroup) : JValue :=
  JObj [ ("slug", JStr slug);
         ("name", JStr (name group));
         ("jid", JStr (template ["web:"; slug]));
         ("added_at", JStr (added_at group)) ].

(** The registry entry that [handleCreateRoom] makes for a name. *)
Definition newRoom (P : Platform) (clk : Clock) (title : string) : RegisteredGroup :=
  {| name := title;
     folder := template ["web-"; slugify title];
     trigger := template ["@"; ASSISTANT_NAME P];
     added_at := isoNow clk;
     requiresTrigger := Some false |}.

(** What [handleCreateRoom] does when it creates the room of a name. *)
Definition created (P : Platform) (clk : Clock) (r : Res) (title : string) : Trace :=
  let jid := template ["web:"; slugify title] in
  [ OnRegisterGroup jid (newRoom P clk title);
    OnChatMetadata jid (isoNow clk) title "web" false;
    WriteHead r 201 jsonHeaders;
    EndResponse r (Some (Json (JObj [ ("slug", JStr (slugify title));
                                      ("name", JStr title);
                                      ("jid", JStr jid) ]))) ].

(** A path segment: no slash in it. *)
Fixpoint slashFree (s : string) : bool :=
  match s with
  | EmptyString => true
  | String c r => negb (isSlash c) && slashFree r
  end.

(** What a request looks like to the router. *)
Definition request (method pathname : string) (queryToken authHeader : option string)
  (chunks : list string) : Request :=
  {| reqMethod := method; reqPathname := pathname; reqQueryToken := queryToken;
     reqAuthorization := authHeader; reqChunks := chunks |}.

(** The entity that stands for one code unit after [escapeHtml]. *)
Definition escapeChar (c : ascii) : string :=
  if Ascii.eqb c "&"%char then "&amp;"
  else if Ascii.eqb c "<"%char then "&lt;"
  else if Ascii.eqb c ">"%char then "&gt;"
  else if Ascii.eqb c (ascii_of_nat 34) then "&quot;"
  else String c EmptyString.

Fixpoint escapeEach (s : string) : string :=
  match s with
  | EmptyString => EmptyString
  | String c r => String.append (escapeChar c) (escapeEach r)
  end.

(** A string that holds none of [&], [<], [>] and the double quote. *)
Fixpoint plainText (s : string) : bool :=
  match s with
  | EmptyString => true
  | String a r => negb (Ascii.eqb a "&"%char) && markupFree (String a EmptyString) && plainText r
  end.

(** How the router turns a request away: one answer with status 204, 401
    or 404 and nothing else, 401 for a path under [/api/]; or a URIError
    on a path under [/r/]. *)
Definition turnedAway (r : Res) (ch : WebChannel) (req : Request)
  (result : option (WebChannel * list RequestEvent)) : Prop :=
  match result with
  | Some (ch', events) =>
      ch' = ch
      /\ requestSideEffects events = []
      /\ (exists status headers body,
             events = (corsHeaders r
                       ++ [ Handled (WriteHead r status headers);
                            Handled (EndResponse r body) ])%list
             /\ (status = 204 \/ status = 401 \/ status = 404))
      /\ (JsString.startsWith "/api/" (reqPathname req) = true ->
          reqMethod req <> "OPTIONS" ->
          events = (corsHeaders r
                    ++ map Handled (respondJson r 401 (errorBody "Unauthorized")))%list)
  | None => JsString.startsWith "/r/" (reqPathname req) = true
  end.

(** A chunk as the ['data'] event delivers it: a [Buffer] of bytes. *)
Definition Buffer : Type := list Byte.byte.

(** The texts that the ['data'] listeners append: [chunk.toString()] of
    each chunk on its own, for [toString] the decoding of one [Buffer]
    (UTF-8 in Node, where a character cut by the end of a chunk decodes to
    replacement characters). *)
Definition chunkTexts (toString : Buffer -> string) (buffers : list Buffer) : list string :=
  map toString buffers.

(** A decoding for closed examples: one code unit for every byte. *)
Definition sampleToString (b : Buffer) : string :=
  string_of_list_ascii (map ascii_of_byte b).

(** The request as Node hands it to [handleRequest]: [req.method],
    [req.url], [req.headers.host], [req.headers.authorization] and the
    texts of the chunks of the body. *)
Record IncomingMessage : Type := {
  imMethod : string;
  imUrl : option string;
  imHost : option string;
  imAuthorization : option string;
  imChunks : list string
}.

(** [new URL(input, base)] as far as the router reads the result: its
    [pathname] and [searchParams.get('token')]; [None] when the
    constructor raises TypeError (an invalid URL). *)
Definition UrlParser : Type := string -> string -> option (string * option string).

(** [req.url || '/'] *)
Definition requestUrl (msg : IncomingMessage) : string :=
  match imUrl msg with
  | Some u => if truthyString (Some u) then u else "/"
  | None => "/"
  end.

(** [`http://${req.headers.host || 'localhost'}`] *)
Definition requestBase (msg : IncomingMessage) : string :=
  template [ "http://";
             match imHost msg with
             | Some h => if truthyString (Some h) then h else "localhost"
             | None => "localhost"
             end ].

(** The exceptions that leave [handleRequest]. *)
Inductive Exception : Type := TypeError | URIError.

(** [handleRequest] from its first line: [new URL] is called before any
    header is set, and a TypeError from it leaves the function with
    nothing answered; otherwise the router runs on the parsed request. *)
Definition handleRequestFromUrl (newURL : UrlParser) (W : WebPlatform) (P : Platform)
  (ch : WebChannel) (groups : Registry) (clk : Clock) (r : Res) (timer : Timer)
  (msg : IncomingMessage) : (WebChannel * list RequestEvent) + Exception :=
  match newURL (requestUrl msg) (requestBase msg) with
  | None => inr TypeError
  | Some (pathname, queryToken) =>
      match handleRequest W P ch groups clk r timer
              (request (imMethod msg) pathname queryToken (imAuthorization msg) (imChunks msg))
      with
      | Some out => inl out
      | None => inr URIError
      end
  end.

(** A URL parser for closed examples: it refuses an input that begins with
    two slashes and takes any other as a path without a query. *)
Definition sampleNewURL : UrlParser :=
  fun input _ => if JsString.startsWith "//" input then None else Some (input, None).

(** The keepalive callback of a subscriber whose response is [r0] runs. *)
Definition ticksFor (r0 : Res) (op : Op) : bool :=
  match op with
  | IntervalElapsed client => Nat.eqb (res client) r0
  | _ => false
  end.

(** A web platform for closed examples: [decodeURIComponent] takes
    strings over [[a-z0-9-]], which need no decoding, and raises on the
    others; [encodeURIComponent] leaves its argument alone. *)
Definition sampleWeb : WebPlatform :=
  {| decodeURIComponent := fun s => if allSlugChars s then Some s else None;
     encodeURIComponent := fun s => s;
     getRoomListHtml := fun _ => "<html>rooms</html>";
     getWebUiHtml := fun _ _ => "<html>chat</html>" |}.

(* ================================================================== *)
(** * Properties *)
(* ================================================================== *)

(** ** Code units *)

Ltac by_code_unit c :=
  destruct c as [[] [] [] [] [] [] [] []]; vm_compute;
  try reflexivity; try discriminate; auto.

Lemma alnum_not_dash (c : ascii) :
  JsString.isLowerAlnum c = true -> JsString.isDash c = false.
Proof. by_code_unit c. Qed.

Lemma isDash_char (c : ascii) : JsString.isDash c = true -> c = "-"%char.
Proof. by_code_unit c. Qed.

Lemma alnum_lowerChar (c : ascii) :
  JsString.isLowerAlnum c = true -> JsString.lowerChar c = c.
Proof. by_code_unit c. Qed.

Lemma dash_lowerChar (c : ascii) :
  JsString.isDash c = true -> JsString.lowerChar c = c.
Proof. by_code_unit c. Qed.

Lemma alnum_not_space (c : ascii) :
  JsString.isLowerAlnum c = true -> JsString.isWhiteSpace c = false.
Proof. by_code_unit c. Qed.

Lemma dash_not_space (c : ascii) :
  JsString.isDash c = true -> JsString.isWhiteSpace c = false.
Proof. by_code_unit c. Qed.

(** ** The two regular-expression replacements *)

Lemma replaceRuns_collapsed (s : string) :
  forall b, collapsed b (JsString.replaceRuns b s) = true.
Proof.
  induction s as [|c r IH]; intro b; simpl; [reflexivity|].
  destruct (JsString.isLowerAlnum c) eqn:Hc.
  - simpl. rewrite Hc. apply IH.
  - destruct b.
    + apply IH.
    + simpl. apply IH.
Qed.

Lemma collapsed_replaceRuns (s : string) :
  forall b, collapsed b s = true -> JsString.replaceRuns b s = s.
Proof.
  induction s as [|c r IH]; intros b H; simpl in *; [reflexivity|].
  destruct (JsString.isLowerAlnum c) eqn:Hc.
  - f_equal. apply IH, H.
  - apply andb_true_iff in H as [H Hr]. apply andb_true_iff in H as [Hd Hb].
    destruct b; [discriminate|].
    rewrite (isDash_char c Hd). f_equal. apply IH, Hr.
Qed.

Lemma collapsed_allSlugChars (s : string) :
  forall b, collapsed b s = true -> allSlugChars s = true.
Proof.
  induction s as [|c r IH]; intros b H; simpl in *; [reflexivity|].
  destruct (JsString.isLowerAlnum c) eqn:Hc; simpl.
  - eapply IH, H.
  - apply andb_true_iff in H as [H Hr]. apply andb_true_iff in H as [Hd _].
    rewrite Hd. eapply IH, Hr.
Qed.

Lemma collapsed_weaken (s : string) :
  forall b, collapsed b s = true -> collapsed false s = true.
Proof.
  destruct s as [|c r]; intros b H; simpl in *; [reflexivity|].
  destruct (JsString.isLowerAlnum c); [exact H|].
  apply andb_true_iff in H as [H Hr]. apply andb_true_iff in H as [Hd _].
  rewrite Hd, Hr. reflexivity.
Qed.

Lemma collapsed_after_dash (s : string) :
  collapsed true s = true -> startsWithDash s = false.
Proof.
  destruct s as [|c r]; simpl; [reflexivity|].
  destruct (JsString.isLowerAlnum c) eqn:Hc; intro H.
  - apply alnum_not_dash, Hc.
  - rewrite andb_false_r in H. discriminate.
Qed.

Lemma dropLeadingDash_shape (s : string) (b : bool) :
  collapsed b s = true ->
  collapsed false (JsString.dropLeadingDash s) = true
  /\ startsWithDash (JsString.dropLeadingDash s) = false.
Proof.
  destruct s as [|c r]; intro H; [split; reflexivity|].
  unfold JsString.dropLeadingDash.
  destruct (JsString.isDash c) eqn:Hd.
  - simpl in H. destruct (JsString.isLowerAlnum c) eqn:Hc.
    + rewrite (alnum_not_dash c Hc) in Hd. discriminate.
    + apply andb_true_iff in H as [_ Hr]. split.
      * eapply collapsed_weaken, Hr.
      * apply collapsed_after_dash, Hr.
  - split; [eapply collapsed_weaken, H | exact Hd].
Qed.

Lemma dropTrailingDash_collapsed (s : string) :
  forall b, collapsed b s = true -> collapsed b (JsString.dropTrailingDash s) = true.
Proof.
  induction s as [|c r IH]; intros b H; [reflexivity|].
  destruct r as [|c' r'].
  - simpl. destruct (JsString.isDash c); [reflexivity | exact H].
  - change (JsString.dropTrailingDash (String c (String c' r')))
      with (String c (JsString.dropTrailingDash (String c' r'))).
    simpl in H. simpl collapsed at 1.
    destruct (JsString.isLowerAlnum c).
    + apply IH, H.
    + apply andb_true_iff in H as [H Hr]. rewrite H. apply IH, Hr.
Qed.

Lemma dropTrailingDash_start (s : string) :
  startsWithDash s = false -> startsWithDash (JsString.dropTrailingDash s) = false.
Proof.
  destruct s as [|c [|c' r']]; simpl; intro H; [reflexivity | | exact H].
  rewrite H. exact H.
Qed.

Lemma dropTrailingDash_end (s : string) :
  forall b, collapsed b s = true -> endsWithDash (JsString.dropTrailingDash s) = false.
Proof.
  induction s as [|c r IH]; intros b H; [reflexivity|].
  destruct r as [|c' r'].
  - simpl. destruct (JsString.isDash c) eqn:Hd; [reflexivity | exact Hd].
  - change (JsString.dropTrailingDash (String c (String c' r')))
      with (String c (JsString.dropTrailingDash (String c' r'))).
    assert (Htail : exists b', collapsed b' (String c' r') = true
                               /\ (b' = true \/ JsString.isDash c = false)).
    { simpl in H. destruct (JsString.isLowerAlnum c) eqn:Hc.
      - exists false. split; [exact H | right; apply alnum_not_dash, Hc].
      - apply andb_true_iff in H as [_ Hr]. exists true. split; [exact Hr | now left]. }
    destruct Htail as [b' [Hr Hside]].
    specialize (IH b' Hr).
    destruct (JsString.dropTrailingDash (String c' r')) as [|d t] eqn:Hdrop.
    + simpl. destruct Hside as [-> | Hnd]; [|exact Hnd].
      (* the tail was the single dash, right after a dash *)
      destruct r' as [|c'' r''].
      * simpl in Hdrop. destruct (JsString.isDash c') eqn:Hd'; [|discriminate].
        simpl in Hr. destruct (JsString.isLowerAlnum c') eqn:Hc'.
        -- rewrite (alnum_not_dash c' Hc') in Hd'. discriminate.
        -- rewrite Hd' in Hr. discriminate.
      * discriminate.
    + exact IH.
Qed.

Lemma dropLeadingDash_id (s : string) :
  startsWithDash s = false -> JsString.dropLeadingDash s = s.
Proof.
  destruct s as [|c r]; simpl; intro H; [reflexivity|]. now rewrite H.
Qed.

Lemma dropTrailingDash_id (s : string) :
  endsWithDash s = false -> JsString.dropTrailingDash s = s.
Proof.
  induction s as [|c r IH]; intro H; [reflexivity|].
  destruct r as [|c' r'].
  - simpl in *. now rewrite H.
  - change (JsString.dropTrailingDash (String c (String c' r')))
      with (String c (JsString.dropTrailingDash (String c' r'))).
    f_equal. apply IH. exact H.
Qed.

Lemma stripEdgeDashes_shape (s : string) (b : bool) :
  collapsed b s = true ->
  let out := JsString.stripEdgeDashes s in
  collapsed false out = true /\ startsWithDash out = false /\ endsWithDash out = false.
Proof.
  intro H. unfold JsString.stripEdgeDashes.
  destruct (dropLeadingDash_shape s b H) as [Hc Hs].
  repeat split.
  - apply dropTrailingDash_collapsed, Hc.
  - apply dropTrailingDash_start, Hs.
  - eapply dropTrailingDash_end, Hc.
Qed.

Lemma toLowerCase_slug (s : string) :
  allSlugChars s = true -> JsString.toLowerCase s = s.
Proof.
  induction s as [|c r IH]; simpl; intro H; [reflexivity|].
  apply andb_true_iff in H as [Hc Hr]. rewrite (IH Hr). f_equal.
  apply orb_true_iff in Hc as [Hc | Hc];
    [apply alnum_lowerChar | apply dash_lowerChar]; exact Hc.
Qed.

Lemma slugChar_not_space (c : ascii) :
  JsString.isLowerAlnum c || JsString.isDash c = true -> JsString.isWhiteSpace c = false.
Proof.
  intro H. apply orb_true_iff in H as [H | H];
    [apply alnum_not_space | apply dash_not_space]; exact H.
Qed.

Lemma trimEnd_slug (s : string) :
  allSlugChars s = true -> JsString.trimEnd s = s.
Proof.
  induction s as [|c r IH]; simpl; intro H; [reflexivity|].
  apply andb_true_iff in H as [Hc Hr]. rewrite (IH Hr).
  destruct r; [|reflexivity]. now rewrite (slugChar_not_space c Hc).
Qed.

Lemma trim_slug (s : string) :
  allSlugChars s = true -> JsString.trim s = s.
Proof.
  intro H. unfold JsString.trim.
  assert (Hs : JsString.trimStart s = s).
  { destruct s as [|c r]; [reflexivity|]. simpl in *.
    apply andb_true_iff in H as [Hc _]. now rewrite (slugChar_not_space c Hc). }
  rewrite Hs. apply trimEnd_slug, H.
Qed.

Section SlugIdempotence.

Variables lower strip : string -> string.
Hypothesis lower_slug : forall s, allSlugChars s = true -> lower s = s.
Hypothesis strip_slug : forall s, allSlugChars s = true -> strip s = s.

(** Whatever the lower-casing and trimming functions do elsewhere, the
    derivation is idempotent as soon as they leave alone a string made of
    [[a-z0-9-]] only. *)
Lemma slugifyWith_idempotent (name : string) :
  slugifyWith lower strip (slugifyWith lower strip name) = slugifyWith lower strip name.
Proof.
  set (out := slugifyWith lower strip name).
  destruct (stripEdgeDashes_shape
              (JsString.replaceRuns false (strip (lower name))) false
              (replaceRuns_collapsed _ false)) as [Hc [Hs He]].
  fold (slugifyWith lower strip name) in Hc, Hs, He. fold out in Hc, Hs, He.
  unfold slugifyWith at 1.
  pose proof (collapsed_allSlugChars out false Hc) as Hall.
  rewrite (lower_slug out Hall), (strip_slug out Hall).
  rewrite (collapsed_replaceRuns out false Hc).
  unfold JsString.stripEdgeDashes.
  rewrite (dropLeadingDash_id out Hs). apply dropTrailingDash_id, He.
Qed.

End SlugIdempotence.

(** C5. Room-identifier derivation ([slugify]: lower-case, trim, replace
    every run of characters outside [[a-z0-9]] by one dash, strip a leading
    and a trailing dash) is deterministic and idempotent: equal names derive
    equal identifiers, deriving again from a derived identifier returns it
    unchanged; "My Project" derives to my-project and "Work Stuff!!" to
    work-stuff. *)
Theorem slugify_deterministic_idempotent :
  (forall name : string, slugify (slugify name) = slugify name)
  /\ (forall a b : string, a = b -> slugify a = slugify b)
  /\ slugify "My Project" = "my-project"
  /\ slugify "Work Stuff!!" = "work-stuff".
Proof.
  split; [|split; [|split]].
  - intro name. unfold slugify.
    apply slugifyWith_idempotent; [apply toLowerCase_slug | apply trim_slug].
  - intros a b ->. reflexivity.
  - reflexivity.
  - reflexivity.
Qed.

(** ** The insertion-ordered map *)

Lemma get_set {V : Type} (k k' : string) (v : V) (m : JsMap.t V) :
  JsMap.get k' (JsMap.set k v m) = if String.eqb k' k then Some v else JsMap.get k' m.
Proof.
  induction m as [|[k0 v0] m IH]; simpl.
  - destruct (String.eqb k' k); reflexivity.
  - destruct (String.eqb_spec k k0) as [->|Hk]; simpl.
    + destruct (String.eqb k' k0); reflexivity.
    + rewrite IH. destruct (String.eqb_spec k' k0) as [->|Hk0]; [|reflexivity].
      destruct (String.eqb_spec k0 k) as [->|_]; [contradiction | reflexivity].
Qed.

Lemma get_delete {V : Type} (k k' : string) (m : JsMap.t V) :
  JsMap.get k' (JsMap.delete k m) = if String.eqb k' k then None else JsMap.get k' m.
Proof.
  induction m as [|[k0 v0] m IH]; simpl.
  - destruct (String.eqb k' k); reflexivity.
  - destruct (String.eqb_spec k k0) as [->|Hk]; simpl.
    + rewrite IH. destruct (String.eqb k' k0); reflexivity.
    + rewrite IH. destruct (String.eqb_spec k' k0) as [->|Hk0]; [|reflexivity].
      destruct (String.eqb_spec k0 k) as [->|_]; [contradiction | reflexivity].
Qed.

Lemma get_In {V : Type} (k : string) (v : V) (m : JsMap.t V) :
  JsMap.get k m = Some v -> In (k, v) m.
Proof.
  induction m as [|[k0 v0] m IH]; simpl; [discriminate|].
  destruct (String.eqb_spec k k0) as [->|_]; intro H.
  - left. congruence.
  - right. apply IH, H.
Qed.

(** ** The subscriber table under [handleSse], the ['close'] listener and
    [disconnect] *)

Section Table.

Variable P : Platform.

Lemma handleSse_table (ch : WebChannel) (r : Res) (t : Timer) (room j : string) :
  JsMap.get j (clientsByRoom (fst (handleSse P ch r t room)))
  = if String.eqb j (template ["web:"; room])
    then Some (clientsOf ch (template ["web:"; room])
               ++ [{| res := r; keepAliveTimer := t |}])%list
    else JsMap.get j (clientsByRoom ch).
Proof.
  unfold handleSse, clientsOf, JsMap.has. cbn [fst withClients clientsByRoom].
  set (jid := template ["web:"; room]).
  destruct (JsMap.get jid (clientsByRoom ch)) as [old|] eqn:Hget; cbn [negb].
  - rewrite Hget, get_set. reflexivity.
  - rewrite get_set, String.eqb_refl, !get_set.
    destruct (String.eqb j jid); reflexivity.
Qed.

Lemma handleSse_clientsOf (ch : WebChannel) (r : Res) (t : Timer) (room j : string) :
  clientsOf (fst (handleSse P ch r t room)) j
  = if String.eqb j (template ["web:"; room])
    then (clientsOf ch j ++ [{| res := r; keepAliveTimer := t |}])%list
    else clientsOf ch j.
Proof.
  unfold clientsOf at 1. rewrite handleSse_table.
  destruct (String.eqb_spec j (template ["web:"; room])) as [->|_]; reflexivity.
Qed.

Lemma sseClosed_table (ch : WebChannel) (jid : string) (client : SseClient) (j : string) :
  JsMap.get j (clientsByRoom (fst (sseClosed ch jid client)))
  = if String.eqb j jid
    then match filter (fun c => negb (sameClient c client)) (clientsOf ch jid) with
         | [] => None
         | kept => Some kept
         end
    else JsMap.get j (clientsByRoom ch).
Proof.
  unfold sseClosed, clientsOf. cbn [fst withClients clientsByRoom].
  destruct (JsMap.get jid (clientsByRoom ch)) as [old|] eqn:Hget.
  - destruct (filter (fun c => negb (sameClient c client)) old) as [|c0 kept] eqn:Hf;
      cbn [List.length Nat.eqb].
    + rewrite get_delete. reflexivity.
    + rewrite get_set. reflexivity.
  - simpl. destruct (String.eqb_spec j jid) as [->|_]; [exact Hget | reflexivity].
Qed.

Lemma sseClosed_clientsOf (ch : WebChannel) (jid : string) (client : SseClient) (j : string) :
  clientsOf (fst (sseClosed ch jid client)) j
  = if String.eqb j jid
    then filter (fun c => negb (sameClient c client)) (clientsOf ch j)
    else clientsOf ch j.
Proof.
  unfold clientsOf at 1. rewrite sseClosed_table.
  destruct (String.eqb_spec j jid) as [->|_]; [|reflexivity].
  destruct (filter _ (clientsOf ch jid)); reflexivity.
Qed.

Lemma disconnect_table (ch : WebChannel) : clientsByRoom (fst (disconnect ch)) = [].
Proof. reflexivity. Qed.

(** The handlers that only read the table. *)
Lemma sendMessage_channel (ch : WebChannel) clk jid text md :
  fst (sendMessage P ch clk jid text md) = ch.
Proof. unfold sendMessage. destruct (negb _); reflexivity. Qed.

Lemma sendEnd_channel (ch : WebChannel) groups clk r jid body :
  fst (sendEnd P ch groups clk r jid body) = ch.
Proof.
  unfold sendEnd.
  destruct (JSON_parse P body) as [v|]; [|reflexivity].
  destruct (destructure "text" v) as [t|]; [|reflexivity].
  destruct (negb (truthy t) || negb (typeofString t)); [reflexivity|].
  destruct (groupAt jid groups); reflexivity.
Qed.

Lemma handleSend_channel (ch : WebChannel) groups clk r room chunks :
  fst (handleSend P ch groups clk r room chunks) = ch.
Proof.
  unfold handleSend. destruct (receiveBody _ _ _); [apply sendEnd_channel | reflexivity].
Qed.

Lemma handleCreateRoom_channel (ch : WebChannel) groups clk r chunks :
  fst (handleCreateRoom P ch groups clk r chunks) = ch.
Proof.
  unfold handleCreateRoom. destruct (negb (hasOnRegisterGroup ch)); [reflexivity|].
  destruct (receiveBody _ _ _) as [body|]; [|reflexivity].
  unfold createRoomEnd.
  destruct (JSON_parse P body) as [v|]; [|reflexivity].
  destruct (destructure "name" v) as [t|]; [|reflexivity].
  destruct (negb (truthy t) || negb (typeofString t)); [reflexivity|].
  destruct (negb (truthy _)); [reflexivity|].
  destruct (groupAt _ groups); reflexivity.
Qed.

Lemma step_table (w : World) (op : Op) : TableChange P w (fst (step P w op)).
Proof.
  destruct op; cbn [step fst snd channel nextHandle].
  - apply Unchanged; [|apply Nat.le_refl]. destruct listening; reflexivity.
  - apply Unchanged; [|apply Nat.le_refl]. now rewrite sendMessage_channel.
  - apply Cleared; reflexivity.
  - apply Unchanged; [reflexivity | apply Nat.le_refl].
  - eapply Subscribed; reflexivity.
  - apply Unchanged; [|apply Nat.le_add_r]. now rewrite handleSend_channel.
  - apply Unchanged; [reflexivity | apply Nat.le_add_r].
  - apply Unchanged; [reflexivity | apply Nat.le_add_r].
  - apply Unchanged; [|apply Nat.le_add_r]. now rewrite handleCreateRoom_channel.
  - eapply Unsubscribed; reflexivity.
  - apply Unchanged; [reflexivity | apply Nat.le_refl].
Qed.

(** An invariant of the table that every kind of change preserves holds
    after any run. *)
Lemma run_invariant (I : World -> Prop) :
  (forall w op, I w -> I (fst (step P w op))) ->
  forall ops w, I w -> I (fst (run P w ops)).
Proof.
  intros Hstep ops. induction ops as [|op rest IH]; intros w Hw; [exact Hw|].
  simpl. destruct (step P w op) as [w1 t1] eqn:Hs.
  specialize (Hstep w op Hw). rewrite Hs in Hstep.
  specialize (IH w1 Hstep). destruct (run P w1 rest) as [w2 t2]. exact IH.
Qed.

Lemma noEmptyRoom_step (w : World) (op : Op) :
  noEmptyRoom (channel w) -> noEmptyRoom (channel (fst (step P w op))).
Proof.
  intros Hinv. destruct (step_table w op) as [Heq _ | room Hch _ | jid client Hch _ | Hnil _];
    unfold noEmptyRoom in *.
  - rewrite Heq. exact Hinv.
  - rewrite Hch. intros j clients Hget. rewrite handleSse_table in Hget.
    destruct (String.eqb j _); [|eapply Hinv, Hget].
    injection Hget as <-. intro Habs. now apply app_eq_nil in Habs as [_ Habs].
  - rewrite Hch. intros j clients Hget. rewrite sseClosed_table in Hget.
    destruct (String.eqb j jid); [|eapply Hinv, Hget].
    destruct (filter _ _); [discriminate|]. injection Hget as <-. discriminate.
  - rewrite Hnil. intros j clients Hget. discriminate.
Qed.

End Table.

(** ** Which responses a publish writes to *)

Section Publish.

Variable P : Platform.

Lemma clientsOf_same_table (ch ch' : WebChannel) (jid : string) :
  clientsByRoom ch' = clientsByRoom ch -> clientsOf ch' jid = clientsOf ch jid.
Proof. unfold clientsOf. now intros ->. Qed.

Lemma clientsOf_empty_table (ch : WebChannel) (jid : string) :
  clientsByRoom ch = [] -> clientsOf ch jid = [].
Proof. unfold clientsOf. now intros ->. Qed.

Lemma NoDup_res_filter (keep : SseClient -> bool) (l : list SseClient) :
  NoDup (map res l) -> NoDup (map res (filter keep l)).
Proof.
  induction l as [|c l IH]; simpl; intro H; [constructor|].
  inversion H as [|x xs Hnotin Hnd]; subst.
  destruct (keep c); [|apply IH, Hnd].
  simpl. constructor; [|apply IH, Hnd].
  intro Hin. apply Hnotin. apply in_map_iff in Hin as [c' [Hc' Hin]].
  apply filter_In in Hin as [Hin _]. apply in_map_iff. now exists c'.
Qed.

Lemma web_prefix (room : string) :
  JsString.startsWith "web:" (template ["web:"; room]) = true.
Proof. unfold JsString.startsWith, template. cbn. destruct room; reflexivity. Qed.

Lemma oneRoomEach_step (w : World) (op : Op) :
  oneRoomEach w -> oneRoomEach (fst (step P w op)).
Proof.
  intros [Hlt [Hroom [Hnd Hweb]]].
  destruct (step_table P w op) as [Heq Hle | room Hch Hn | jid client Hch Hn | Hnil Hn];
    unfold oneRoomEach.
  - repeat split; intros *.
    + rewrite (clientsOf_same_table _ _ _ Heq). intro Hin.
      eapply Nat.lt_le_trans; [eapply Hlt, Hin | exact Hle].
    + rewrite !(clientsOf_same_table _ _ _ Heq). apply Hroom.
    + rewrite (clientsOf_same_table _ _ _ Heq). apply Hnd.
    + rewrite (clientsOf_same_table _ _ _ Heq). apply Hweb.
  - rewrite Hch, Hn. set (jid := template ["web:"; room]).
    assert (Hin : forall j c,
      In c (clientsOf (fst (handleSse P (channel w) (nextHandle w) (S (nextHandle w)) room)) j) ->
      (In c (clientsOf (channel w) j) /\ res c < nextHandle w)
      \/ (j = jid /\ res c = nextHandle w)).
    { intros j c. rewrite handleSse_clientsOf. fold jid.
      destruct (String.eqb_spec j jid) as [->|_]; intro Hin.
      - apply in_app_or in Hin as [Hin | [<- | []]]; [left | right; now split].
        split; [exact Hin | eapply Hlt, Hin].
      - left. split; [exact Hin | eapply Hlt, Hin]. }
    repeat split.
    + intros j c Hc. destruct (Hin j c Hc) as [[_ H] | [_ H]]; lia.
    + intros j1 j2 c1 c2 H1 H2 Heq.
      destruct (Hin j1 c1 H1) as [[H1' L1] | [-> E1]], (Hin j2 c2 H2) as [[H2' L2] | [-> E2]];
        try lia; [eapply Hroom; eassumption | reflexivity].
    + intro j. rewrite handleSse_clientsOf. fold jid.
      destruct (String.eqb_spec j jid) as [->|_]; [|apply Hnd].
      rewrite map_app. simpl. apply NoDup_app.
      * apply Hnd.
      * constructor; [intros [] | constructor].
      * intros x Hx [<- | []]. apply in_map_iff in Hx as [c [Hc Hx]].
        specialize (Hlt jid c Hx). lia.
    + intros j c Hc. destruct (Hin j c Hc) as [[H _] | [-> _]];
        [eapply Hweb, H | apply web_prefix].
  - rewrite Hch, Hn.
    assert (Hin : forall j c, In c (clientsOf (fst (sseClosed (channel w) jid client)) j) ->
                              In c (clientsOf (channel w) j)).
    { intros j c. rewrite sseClosed_clientsOf.
      destruct (String.eqb j jid); [|tauto]. intro H. now apply filter_In in H. }
    repeat split.
    + intros j c Hc. eapply Hlt, Hin, Hc.
    + intros j1 j2 c1 c2 H1 H2. eapply Hroom; eapply Hin; eassumption.
    + intro j. rewrite sseClosed_clientsOf.
      destruct (String.eqb j jid); [apply NoDup_res_filter|]; apply Hnd.
    + intros j c Hc. eapply Hweb, Hin, Hc.
  - repeat split; intros *; rewrite ?(clientsOf_empty_table _ _ Hnil);
      try contradiction. constructor.
Qed.

Lemma oneRoomEach_start (ch : WebChannel) :
  clientsByRoom ch = [] -> oneRoomEach (start ch).
Proof.
  intro Hnil. unfold oneRoomEach, start; cbn [channel nextHandle].
  repeat split; intros *; rewrite ?(clientsOf_empty_table _ _ Hnil);
    try contradiction. constructor.
Qed.

Lemma writesTo_app (r : Res) (t1 t2 : Trace) :
  writesTo r (t1 ++ t2) = (writesTo r t1 ++ writesTo r t2)%list.
Proof.
  induction t1 as [|e t1 IH]; [reflexivity|].
  destruct e as [? ? ?|r0 chunk o|? ?|?|?|? ? ?|?|?|? ? ? ? ?|? ?|? ?|?|];
    simpl; try exact IH.
  destruct (Nat.eqb r0 r); simpl; now rewrite IH.
Qed.

Lemma writes_app (t1 t2 : Trace) : writes (t1 ++ t2) = (writes t1 ++ writes t2)%list.
Proof.
  induction t1 as [|e t1 IH]; [reflexivity|].
  destruct e; simpl; try exact IH. now rewrite IH.
Qed.

Lemma writes_broadcast (ch : WebChannel) (jid : string) (msg : Message) :
  writes (broadcast P ch jid msg)
  = map (fun c => (res c, MessageEvent (jsonOfMessage msg))) (clientsOf ch jid).
Proof.
  unfold broadcast. induction (clientsOf ch jid) as [|c l IH]; [reflexivity|].
  simpl. now rewrite IH.
Qed.

Lemma writesTo_broadcast_other (ch : WebChannel) (jid : string) (msg : Message) (r : Res) :
  (forall c, In c (clientsOf ch jid) -> res c <> r) ->
  writesTo r (broadcast P ch jid msg) = [].
Proof.
  unfold broadcast. induction (clientsOf ch jid) as [|c l IH]; intro H; [reflexivity|].
  simpl. destruct (Nat.eqb_spec (res c) r) as [E|_].
  - exfalso. apply (H c); [now left | exact E].
  - apply IH. intros c' Hc'. apply H. now right.
Qed.

Lemma writesTo_broadcast_member (ch : WebChannel) (jid : string) (msg : Message)
  (c : SseClient) :
  NoDup (map res (clientsOf ch jid)) -> In c (clientsOf ch jid) ->
  writesTo (res c) (broadcast P ch jid msg) = [MessageEvent (jsonOfMessage msg)].
Proof.
  unfold broadcast. induction (clientsOf ch jid) as [|c0 l IH]; intros Hnd Hin; [contradiction|].
  inversion Hnd as [|x xs Hnotin Hnd']; subst. simpl.
  destruct Hin as [-> | Hin].
  - rewrite Nat.eqb_refl. f_equal.
    fold (broadcast P ch jid msg).
    assert (Hno : forall c', In c' l -> res c' <> res c).
    { intros c' Hc' E. apply Hnotin. apply in_map_iff. now exists c'. }
    clear - Hno. induction l as [|c1 l IHl]; [reflexivity|]. simpl.
    destruct (Nat.eqb_spec (res c1) (res c)) as [E|_].
    + exfalso. apply (Hno c1); [now left | exact E].
    + apply IHl. intros c' Hc'. apply Hno. now right.
  - destruct (Nat.eqb_spec (res c0) (res c)) as [E|_].
    + exfalso. apply Hnotin. rewrite E. apply in_map, Hin.
    + apply IH; assumption.
Qed.

End Publish.

(** ** The send handler, branch by branch *)

Section Send.

Variable P : Platform.

Lemma sendEnd_accepts (ch : WebChannel) groups clk r jid body text group :
  submittedField P "text" body = Some text -> text <> "" ->
  groupAt jid groups = Some group ->
  sendEnd P ch groups clk r jid body
  = (ch, acceptedSend P ch r jid group (userMessage clk jid text)).
Proof.
  unfold submittedField, sendEnd. intros Hfield Hne Hgroup.
  destruct (JSON_parse P body) as [parsed|]; [|discriminate].
  destruct (destructure "text" parsed) as [[v|]|]; try discriminate.
  destruct v; try discriminate. injection Hfield as ->.
  apply String.eqb_neq in Hne. cbn [truthy typeofString stringOf]. rewrite Hne.
  cbn [negb orb]. rewrite Hgroup. reflexivity.
Qed.

Lemma sendEnd_unknown_room (ch : WebChannel) groups clk r jid body text :
  submittedField P "text" body = Some text -> text <> "" ->
  groupAt jid groups = None ->
  sendEnd P ch groups clk r jid body = (ch, respondJson r 404 (errorBody "Room not found")).
Proof.
  unfold submittedField, sendEnd. intros Hfield Hne Hgroup.
  destruct (JSON_parse P body) as [parsed|]; [|discriminate].
  destruct (destructure "text" parsed) as [[v|]|]; try discriminate.
  destruct v; try discriminate. injection Hfield as ->.
  apply String.eqb_neq in Hne. cbn [truthy typeofString stringOf]. rewrite Hne.
  cbn [negb orb]. rewrite Hgroup. reflexivity.
Qed.

Lemma sendEnd_bad_text (ch : WebChannel) groups clk r jid body :
  submittedField P "text" body = None \/ submittedField P "text" body = Some "" ->
  exists message, sendEnd P ch groups clk r jid body = (ch, respondJson r 400 (errorBody message)).
Proof.
  unfold submittedField, sendEnd. intro H.
  destruct (JSON_parse P body) as [parsed|]; [|eexists; reflexivity].
  destruct (destructure "text" parsed) as [[v|]|]; [| |eexists; reflexivity].
  - destruct v; cbn [truthy typeofString negb orb];
      rewrite ?orb_true_r; try (eexists; reflexivity).
    destruct H as [H | H]; [discriminate|]. injection H as ->.
    eexists; reflexivity.
  - eexists; reflexivity.
Qed.

(** Every call of [handleSend] either answers with an error status and does
    nothing else, or accepts a non-empty text for a known room. *)
Lemma handleSend_cases (ch : WebChannel) groups clk r room chunks :
  (exists status message extra,
      snd (handleSend P ch groups clk r room chunks)
      = (respondJson r status (errorBody message) ++ extra)%list
      /\ (extra = [] \/ extra = [DestroyRequest r]) /\ status <> 200)
  \/ (exists body text group,
         receiveBody 100000%N "" chunks = Some body
         /\ submittedField P "text" body = Some text /\ text <> ""
         /\ groupAt (template ["web:"; room]) groups = Some group
         /\ snd (handleSend P ch groups clk r room chunks)
            = acceptedSend P ch r (template ["web:"; room]) group
                (userMessage clk (template ["web:"; room]) text)).
Proof.
  unfold handleSend. set (jid := template ["web:"; room]).
  destruct (receiveBody 100000%N "" chunks) as [body|] eqn:Hbody.
  - destruct (submittedField P "text" body) as [text|] eqn:Hfield.
    + destruct (String.eqb_spec text "") as [->|Hne].
      * destruct (sendEnd_bad_text ch groups clk r jid body (or_intror Hfield)) as [m Hm].
        left. exists 400, m, []. rewrite Hm, app_nil_r. repeat split; [now left | discriminate].
      * destruct (groupAt jid groups) as [group|] eqn:Hgroup.
        -- right. exists body, text, group. repeat split; try assumption.
           now rewrite (sendEnd_accepts ch groups clk r jid body text group).
        -- left. exists 404, "Room not found", [].
           rewrite (sendEnd_unknown_room ch groups clk r jid body text), app_nil_r by assumption.
           repeat split; [now left | discriminate].
    + destruct (sendEnd_bad_text ch groups clk r jid body (or_introl Hfield)) as [m Hm].
      left. exists 400, m, []. rewrite Hm, app_nil_r. repeat split; [now left | discriminate].
  - left. exists 413, "Payload too large", [DestroyRequest r].
    repeat split; [now right | discriminate].
Qed.

End Send.

(** C4 (as amended). A send request whose body has no text field, or a text
    field that is not a string, or the empty string as text, is answered
    with 400 and nothing else happens: the channel is unchanged and the
    trace holds the two response events only, so nothing is stored, no
    callback runs and nothing is broadcast. *)
Theorem send_without_text_is_refused
  (P : Platform) (ch : WebChannel) (groups : Registry) (clk : Clock) (r : Res)
  (room : string) (chunks : list string) (body : string) :
  receiveBody 100000%N "" chunks = Some body ->
  submittedField P "text" body = None \/ submittedField P "text" body = Some "" ->
  exists message,
    handleSend P ch groups clk r room chunks = (ch, respondJson r 400 (errorBody message))
    /\ filter isSideEffect (snd (handleSend P ch groups clk r room chunks)) = [].
Proof.
  intros Hbody Hbad. unfold handleSend. rewrite Hbody.
  destruct (sendEnd_bad_text P ch groups clk r (template ["web:"; room]) body Hbad) as [m Hm].
  exists m. rewrite Hm. split; reflexivity.
Qed.

(** C8. A send request whose text passes validation but whose room is not
    in the registry is answered with 404 and nothing else happens: no
    message is built or stored, no callback runs, nothing is broadcast. *)
Theorem send_to_unknown_room_is_not_found
  (P : Platform) (ch : WebChannel) (groups : Registry) (clk : Clock) (r : Res)
  (room : string) (chunks : list string) (body text : string) :
  receiveBody 100000%N "" chunks = Some body ->
  submittedField P "text" body = Some text -> text <> "" ->
  groupAt (template ["web:"; room]) groups = None ->
  handleSend P ch groups clk r room chunks
  = (ch, respondJson r 404 (errorBody "Room not found"))
  /\ filter isSideEffect (snd (handleSend P ch groups clk r room chunks)) = [].
Proof.
  intros Hbody Hfield Hne Hgroup. unfold handleSend. rewrite Hbody.
  rewrite (sendEnd_unknown_room P ch groups clk r _ body text Hfield Hne Hgroup).
  split; reflexivity.
Qed.

(** C9 (as amended). A valid send request with text [text] to a known room
    builds one message whose content is the text with leading and trailing
    white space removed (the text itself when it has none) and whose room
    is the room of the request; that one message goes to the chat-metadata
    and orchestrator callbacks, to every subscriber of the room and into
    the response body. *)
Theorem send_delivers_one_trimmed_message
  (P : Platform) (ch : WebChannel) (groups : Registry) (clk : Clock) (r : Res)
  (room : string) (chunks : list string) (body text : string) (group : RegisteredGroup) :
  receiveBody 100000%N "" chunks = Some body ->
  submittedField P "text" body = Some text -> text <> "" ->
  groupAt (template ["web:"; room]) groups = Some group ->
  let jid := template ["web:"; room] in
  let msg := userMessage clk jid text in
  content msg = JsString.trim text
  /\ (JsString.trim text = text -> content msg = text)
  /\ chat_jid msg = jid
  /\ handleSend P ch groups clk r room chunks
     = (ch,
        [ OnChatMetadata jid (timestamp msg) (name group) "web" false; OnMessage jid msg ]
        ++ map (fun c => Write (res c) (MessageEvent (jsonOfMessage msg))
                           (writeOutcome P (res c)))
               (clientsOf ch jid)
        ++ [ WriteHead r 200 jsonHeaders;
             EndResponse r (Some (Json (JObj [ ("ok", JBool true);
                                               ("message", jsonOfMessage msg) ]))) ])%list.
Proof.
  intros Hbody Hfield Hne Hgroup jid msg. repeat split.
  - intro H. exact H.
  - unfold handleSend. rewrite Hbody.
    now rewrite (sendEnd_accepts P ch groups clk r _ body text group Hfield Hne Hgroup).
Qed.

(** ** The subscriber table *)

(** C3. In every state the channel reaches, no key of [clientsByRoom] is
    mapped to an empty list: [handleSse] appends the new subscriber to the
    list of its room, the ['close'] listener removes the subscriber and
    deletes the key when nothing is left, and [disconnect] empties the
    table. *)
Theorem subscriber_table_has_no_empty_room
  (P : Platform) (optPort : nat) (optToken : string) (optRegister : bool) (ops : list Op) :
  let ch := channel (fst (run P (start (newWebChannel optPort optToken optRegister)) ops)) in
  noEmptyRoom ch
  /\ (forall r t room,
        clientsOf (fst (handleSse P ch r t room)) (template ["web:"; room])
        = (clientsOf ch (template ["web:"; room]) ++ [{| res := r; keepAliveTimer := t |}])%list)
  /\ (forall jid client,
        let ch' := fst (sseClosed ch jid client) in
        let kept := filter (fun c => negb (sameClient c client)) (clientsOf ch jid) in
        clientsOf ch' jid = kept
        /\ ~ In client (clientsOf ch' jid)
        /\ (kept = [] -> JsMap.has jid (clientsByRoom ch') = false))
  /\ clientsByRoom (fst (disconnect ch)) = [].
Proof.
  intro ch. split; [|split; [|split]].
  - subst ch.
    apply (run_invariant P (fun w => noEmptyRoom (channel w))).
    + intros w op. apply noEmptyRoom_step.
    + intros jid clients Hget. discriminate.
  - intros r t room. rewrite handleSse_clientsOf, String.eqb_refl. reflexivity.
  - intros jid client ch' kept. subst ch' kept.
    rewrite sseClosed_clientsOf, String.eqb_refl. repeat split.
    + intro Hin. apply filter_In in Hin as [_ Hne].
      unfold sameClient in Hne. now rewrite !Nat.eqb_refl in Hne.
    + intro Hnil. unfold JsMap.has. rewrite sseClosed_table, String.eqb_refl, Hnil.
      reflexivity.
  - reflexivity.
Qed.

Lemma clientsOf_In (ch : WebChannel) (jid : string) (c : SseClient) :
  In c (clientsOf ch jid) -> exists clients, In (jid, clients) (clientsByRoom ch) /\ In c clients.
Proof.
  unfold clientsOf. destruct (JsMap.get jid (clientsByRoom ch)) as [clients|] eqn:Hget;
    [|contradiction].
  intro Hin. exists clients. split; [apply get_In, Hget | exact Hin].
Qed.

(** C7. When [disconnect] is done, every subscriber that was registered has
    had its keepalive timer cleared and its response ended, and
    [clientsByRoom] is empty. *)
Theorem disconnect_ends_every_subscriber (ch : WebChannel) :
  let out := disconnect ch in
  clientsByRoom (fst out) = []
  /\ connected (fst out) = false
  /\ (forall jid c, In c (clientsOf ch jid) ->
        In (ClearInterval (keepAliveTimer c)) (snd out)
        /\ In (EndResponse (res c) None) (snd out)).
Proof.
  cbv zeta. split; [reflexivity | split; [reflexivity|]].
  intros jid c Hin. apply clientsOf_In in Hin as [clients [Hentry Hc]].
  unfold disconnect. cbn [snd withConnected clientsByRoom].
  assert (Hsub : forall e, In e (endClient c) ->
            In e (flat_map (fun entry : string * list SseClient =>
                              flat_map endClient (snd entry)) (clientsByRoom ch))).
  { intros e He. apply in_flat_map. exists (jid, clients). split; [exact Hentry|].
    apply in_flat_map. exists c. split; assumption. }
  split; apply in_or_app; left; apply Hsub; simpl; auto.
Qed.

(** Two subscribers in two rooms: [disconnect] clears the timer and ends
    the response of the one in room [web:b], and leaves no room behind. *)
Lemma disconnect_two_rooms :
  let P := samplePlatform "" JNull in
  let ch := channel (fst (run P (start sampleChannel) [GetEvents "a"; GetEvents "b"])) in
  clientsByRoom (fst (disconnect ch)) = []
  /\ In (ClearInterval 3) (snd (disconnect ch))
  /\ In (EndResponse 2 None) (snd (disconnect ch)).
Proof.
  cbv zeta.
  destruct (disconnect_ends_every_subscriber
              (channel (fst (run (samplePlatform "" JNull) (start sampleChannel)
                                 [GetEvents "a"; GetEvents "b"]))))
    as [Hempty [_ Hended]].
  split; [exact Hempty|].
  apply (Hended "web:b" {| res := 2; keepAliveTimer := 3 |}). left. reflexivity.
Defined.

(** ** Stream-open and history *)

(** C10. Whatever the room, [handleSse] answers 200, writes the initial
    comment, starts a keepalive timer and registers the subscriber under
    the room, and [handleHistory] answers 200 with what the store returns;
    neither handler is given the registry, and every status either of them
    sends is 200. *)
Theorem stream_and_history_never_check_the_room
  (P : Platform) (ch : WebChannel) (r : Res) (t : Timer) (room : string) :
  let jid := template ["web:"; room] in
  let opened := handleSse P ch r t room in
  snd opened
  = [ WriteHead r 200 sseHeaders;
      Write r (Text (template [":ok"; newline; newline])) (writeOutcome P r);
      SetInterval t r 30000%N;
      OnClose r ]
  /\ In {| res := r; keepAliveTimer := t |} (clientsOf (fst opened) jid)
  /\ handleHistory P ch r room
     = (ch, [ WriteHead r 200 jsonHeaders;
              EndResponse r (Some (Json (getRecentMessages P jid 50%N))) ])
  /\ (forall r' status headers,
        In (WriteHead r' status headers) (snd opened ++ snd (handleHistory P ch r room)) ->
        status = 200).
Proof.
  cbv zeta. split; [reflexivity | split; [|split; [reflexivity|]]].
  - rewrite handleSse_clientsOf, String.eqb_refl. apply in_or_app. right. now left.
  - intros r' status headers Hin. simpl in Hin.
    repeat (destruct Hin as [Hin | Hin]; [try discriminate; now inversion Hin|]).
    contradiction.
Qed.

(** ** Publishing *)

Lemma reached_oneRoomEach (P : Platform) (optPort : nat) (optToken : string)
  (optRegister : bool) (ops : list Op) :
  oneRoomEach (fst (run P (start (newWebChannel optPort optToken optRegister)) ops)).
Proof.
  apply (run_invariant P oneRoomEach).
  - intros w op. apply oneRoomEach_step.
  - apply oneRoomEach_start. reflexivity.
Qed.

Lemma acceptedSend_writes (P : Platform) (ch : WebChannel) r jid group msg :
  writes (acceptedSend P ch r jid group msg)
  = map (fun c => (res c, MessageEvent (jsonOfMessage msg))) (clientsOf ch jid).
Proof.
  unfold acceptedSend. cbn [app writes]. rewrite writes_app, writes_broadcast.
  cbn [respondJson writes]. apply app_nil_r.
Qed.

Lemma acceptedSend_writesTo (P : Platform) (ch : WebChannel) r jid group msg r' :
  writesTo r' (acceptedSend P ch r jid group msg) = writesTo r' (broadcast P ch jid msg).
Proof.
  unfold acceptedSend. cbn [app writesTo]. rewrite writesTo_app.
  cbn [respondJson writesTo]. apply app_nil_r.
Qed.

Lemma acceptedSend_message (P : Platform) (ch : WebChannel) r jid group msg msg' :
  In (OnMessage jid msg') (acceptedSend P ch r jid group msg) -> msg' = msg.
Proof.
  unfold acceptedSend. cbn [app]. intros [H | [H | H]]; [discriminate | congruence |].
  exfalso. apply in_app_or in H as [H | H].
  - unfold broadcast in H. apply in_map_iff in H as [c [Hc _]]. discriminate.
  - simpl in H. destruct H as [H | [H | []]]; discriminate.
Qed.

Lemma refusal_has_no_side_effect (r : Res) status message extra :
  extra = [] \/ extra = [DestroyRequest r] ->
  let tr := (respondJson r status (errorBody message) ++ extra)%list in
  writes tr = [] /\ (forall r', writesTo r' tr = []) /\ (forall jid msg, ~ In (OnMessage jid msg) tr).
Proof.
  intros [-> | ->]; cbv zeta; repeat split; try reflexivity;
    intros jid msg H; simpl in H; repeat (destruct H as [H | H]; [discriminate|]);
    contradiction.
Qed.

(** C1. In every state the channel reaches and for every room identifier
    [jid], publishing to [jid], by [sendMessage] or by the broadcast step
    of [handleSend] on a valid request, writes the message event once to
    the response of every subscriber registered for [jid] and writes
    nothing to a subscriber registered for another room; with no
    subscriber registered for [jid] it writes nothing at all; and the
    table is left as it was. *)
Theorem publish_reaches_exactly_the_room
  (P : Platform) (optPort : nat) (optToken : string) (optRegister : bool) (ops : list Op) :
  let ch := channel (fst (run P (start (newWebChannel optPort optToken optRegister)) ops)) in
  (forall clk jid text metadata,
      let out := sendMessage P ch clk jid text metadata in
      let frame := MessageEvent (jsonOfMessage (botMessage P clk jid text metadata)) in
      fst out = ch
      /\ (forall c, In c (clientsOf ch jid) -> writesTo (res c) (snd out) = [frame])
      /\ (forall jid' c, jid' <> jid -> In c (clientsOf ch jid') ->
                         writesTo (res c) (snd out) = [])
      /\ (clientsOf ch jid = [] -> writes (snd out) = []))
  /\ (forall groups clk r room chunks,
        let jid := template ["web:"; room] in
        let out := handleSend P ch groups clk r room chunks in
        fst out = ch
        /\ (forall body text group,
              receiveBody 100000%N "" chunks = Some body ->
              submittedField P "text" body = Some text -> text <> "" ->
              groupAt jid groups = Some group ->
              let msg := userMessage clk jid text in
              In (OnMessage jid msg) (snd out)
              /\ (forall c, In c (clientsOf ch jid) ->
                            writesTo (res c) (snd out) = [MessageEvent (jsonOfMessage msg)]))
        /\ (forall msg c, In (OnMessage jid msg) (snd out) -> In c (clientsOf ch jid) ->
                          writesTo (res c) (snd out) = [MessageEvent (jsonOfMessage msg)])
        /\ (forall jid' c, jid' <> jid -> In c (clientsOf ch jid') ->
                           writesTo (res c) (snd out) = [])
        /\ (clientsOf ch jid = [] -> writes (snd out) = [])).
Proof.
  intro ch.
  destruct (reached_oneRoomEach P optPort optToken optRegister ops) as [_ [Hroom [Hnd Hweb]]].
  fold ch in Hroom, Hnd, Hweb.
  assert (Hother : forall jid jid' c, jid' <> jid -> In c (clientsOf ch jid') ->
                     forall c', In c' (clientsOf ch jid) -> res c' <> res c).
  { intros jid jid' c Hne Hc c' Hc' E. apply Hne. symmetry.
    exact (Hroom jid jid' c' c Hc' Hc E). }
  split.
  - intros clk jid text metadata out frame. subst out frame.
    unfold sendMessage.
    destruct (JsString.startsWith "web:" jid) eqn:Howns; cbn [negb fst snd writesTo writes].
    + repeat split.
      * intros c Hc. apply writesTo_broadcast_member; [apply Hnd | exact Hc].
      * intros jid' c Hne Hc. apply writesTo_broadcast_other. eapply Hother; eassumption.
      * intro Hnil. rewrite writes_broadcast, Hnil. reflexivity.
    + repeat split.
      intros c Hc. apply Hweb in Hc. congruence.
  - intros groups clk r room chunks jid out. subst out.
    split; [apply handleSend_channel|]. split.
    { intros body text group Hbody Hfield Hne Hgroup msg. subst msg.
      assert (Hrun : snd (handleSend P ch groups clk r room chunks)
                     = acceptedSend P ch r jid group (userMessage clk jid text)).
      { unfold handleSend. rewrite Hbody. fold jid.
        now rewrite (sendEnd_accepts P ch groups clk r jid body text group Hfield Hne Hgroup). }
      rewrite Hrun. split.
      - unfold acceptedSend. simpl. right. left. reflexivity.
      - intros c Hc. rewrite acceptedSend_writesTo.
        apply writesTo_broadcast_member; [apply Hnd | exact Hc]. }
    destruct (handleSend_cases P ch groups clk r room chunks)
      as [[status [message [extra [Htr [Hextra _]]]]]
         | [body [text [group [_ [_ [_ [_ Htr]]]]]]]]; rewrite Htr; fold jid.
    + destruct (refusal_has_no_side_effect r status message extra Hextra) as [Hw [Hto Hmsg]].
      repeat split.
      * intros msg c Hin. now apply Hmsg in Hin.
      * intros jid' c _ _. apply Hto.
      * intros _. exact Hw.
    + repeat split.
      * intros msg c Hin Hc. apply acceptedSend_message in Hin as ->.
        rewrite acceptedSend_writesTo.
        apply writesTo_broadcast_member; [apply Hnd | exact Hc].
      * intros jid' c Hne Hc. rewrite acceptedSend_writesTo.
        apply writesTo_broadcast_other. eapply Hother; eassumption.
      * intro Hnil. rewrite acceptedSend_writes, Hnil. reflexivity.
Qed.

(** The scenario of two rooms with one subscriber each: a message for room
    [web:b], from the agent or from the send endpoint, reaches the
    subscriber of [web:b] and not the one of [web:a]. *)
Lemma two_rooms_scenario :
  let body := jsonBody "text" "hello-b" in
  let P := samplePlatform body (JObj [("text", JStr "hello-b")]) in
  let groups := [("web:b", sampleGroup "Room B" "b")] in
  let ch := channel (fst (run P (start sampleChannel) [GetEvents "a"; GetEvents "b"])) in
  let out := sendMessage P ch sampleClock "web:b" "hello-b" None in
  let sent := handleSend P ch groups sampleClock 7 "b" [body] in
  clientsOf ch "web:a" = [{| res := 0; keepAliveTimer := 1 |}]
  /\ clientsOf ch "web:b" = [{| res := 2; keepAliveTimer := 3 |}]
  /\ writesTo 2 (snd out)
     = [MessageEvent (jsonOfMessage (botMessage P sampleClock "web:b" "hello-b" None))]
  /\ writesTo 0 (snd out) = []
  /\ writesTo 2 (snd sent)
     = [MessageEvent (jsonOfMessage (userMessage sampleClock "web:b" "hello-b"))]
  /\ writesTo 0 (snd sent) = [].
Proof.
  cbv zeta.
  destruct (publish_reaches_exactly_the_room
              (samplePlatform (jsonBody "text" "hello-b") (JObj [("text", JStr "hello-b")]))
              0 "test-token-123" true
              [GetEvents "a"; GetEvents "b"]) as [Hsend Hpost].
  destruct (Hsend sampleClock "web:b" "hello-b" None) as [_ [Hmember [Hother _]]].
  destruct (Hpost [("web:b", sampleGroup "Room B" "b")] sampleClock 7 "b"
                  [jsonBody "text" "hello-b"]) as [_ [Hvalid [_ [Hother' _]]]].
  assert (Hne : "hello-b" <> "") by discriminate.
  destruct (Hvalid (jsonBody "text" "hello-b") "hello-b" (sampleGroup "Room B" "b")
                   eq_refl eq_refl Hne eq_refl) as [_ Hmember'].
  split; [reflexivity | split; [reflexivity | split; [|split; [|split]]]].
  - apply (Hmember {| res := 2; keepAliveTimer := 3 |}). left. reflexivity.
  - apply (Hother "web:a" {| res := 0; keepAliveTimer := 1 |}); [discriminate|].
    left. reflexivity.
  - apply (Hmember' {| res := 2; keepAliveTimer := 3 |}). left. reflexivity.
  - apply (Hother' "web:a" {| res := 0; keepAliveTimer := 1 |}); [discriminate|].
    left. reflexivity.
Defined.

Lemma forget_broadcast (P Q : Platform) (ch : WebChannel) (jid : string) (msg : Message) :
  map forgetOutcome (broadcast Q ch jid msg) = map forgetOutcome (broadcast P ch jid msg).
Proof. unfold broadcast. rewrite !map_map. reflexivity. Qed.

Lemma forget_handleSend (P : Platform) (fate : Res -> WriteOutcome) (ch : WebChannel)
  groups clk r room chunks :
  map forgetOutcome (snd (handleSend (withOutcome P fate) ch groups clk r room chunks))
  = map forgetOutcome (snd (handleSend P ch groups clk r room chunks)).
Proof.
  unfold handleSend. destruct (receiveBody _ _ _) as [body|]; [|reflexivity].
  unfold sendEnd. cbn [JSON_parse withOutcome].
  destruct (JSON_parse P body) as [parsed|]; [|reflexivity].
  destruct (destructure "text" parsed) as [t|]; [|reflexivity].
  destruct (negb (truthy t) || negb (typeofString t)); [reflexivity|].
  destruct (groupAt _ groups); [|reflexivity].
  cbn [snd]. rewrite !map_app. f_equal. f_equal. apply forget_broadcast.
Qed.

(** C2 (as amended). A publish writes the message event to the subscribers
    of the room in the order in which they registered, and it does so
    blind to what becomes of each write: under any fates of the written
    chunks the same calls are made in the same order (so a failed write
    stops nothing and changes no response to any peer) and the subscriber
    table is left untouched; a subscriber leaves the table through its
    ['close'] listener or [disconnect], never through a publish. *)
Theorem publish_is_blind_to_write_failures
  (P : Platform) (fate : Res -> WriteOutcome) (ch : WebChannel) :
  let Q := withOutcome P fate in
  (forall clk jid text metadata,
      let out := sendMessage Q ch clk jid text metadata in
      fst out = ch
      /\ map forgetOutcome (snd out)
         = map forgetOutcome (snd (sendMessage P ch clk jid text metadata))
      /\ (ownsJid jid = true ->
          writes (snd out)
          = map (fun c => (res c, MessageEvent (jsonOfMessage (botMessage Q clk jid text metadata))))
                (clientsOf ch jid)))
  /\ (forall groups clk r room chunks,
        let jid := template ["web:"; room] in
        let out := handleSend Q ch groups clk r room chunks in
        fst out = ch
        /\ map forgetOutcome (snd out)
           = map forgetOutcome (snd (handleSend P ch groups clk r room chunks))
        /\ (forall msg, In (OnMessage jid msg) (snd out) ->
              writes (snd out)
              = map (fun c => (res c, MessageEvent (jsonOfMessage msg))) (clientsOf ch jid)
              /\ In (WriteHead r 200 jsonHeaders) (snd out)))
  /\ (forall r t room,
        clientsOf (fst (handleSse Q ch r t room)) (template ["web:"; room])
        = (clientsOf ch (template ["web:"; room]) ++ [{| res := r; keepAliveTimer := t |}])%list).
Proof.
  intro Q. split; [|split].
  - intros clk jid text metadata out. subst out. unfold sendMessage, ownsJid.
    destruct (JsString.startsWith "web:" jid); cbn [negb fst snd].
    + repeat split.
      * cbn [map forgetOutcome]. f_equal. apply forget_broadcast.
      * intros _. cbn [writes]. apply writes_broadcast.
    + repeat split. discriminate.
  - intros groups clk r room chunks jid out. subst out.
    split; [apply handleSend_channel | split; [apply forget_handleSend|]].
    intros msg Hin.
    destruct (handleSend_cases Q ch groups clk r room chunks)
      as [[status [message [extra [Htr [Hextra _]]]]]
         | [body [text [group [_ [_ [_ [_ Htr]]]]]]]]; rewrite Htr in Hin |- *; fold jid in Hin |- *.
    + destruct (refusal_has_no_side_effect r status message extra Hextra) as [_ [_ Hmsg]].
      now apply Hmsg in Hin.
    + apply acceptedSend_message in Hin as ->. split; [apply acceptedSend_writes|].
      unfold acceptedSend. apply in_or_app. right. apply in_or_app. right. simpl. now left.
  - intros r t room. rewrite handleSse_clientsOf, String.eqb_refl. reflexivity.
Qed.

(** C2, the claim as it stands fails: the write to the first of two
    subscribers of room [web:a] fails, the second is still written to, and
    after the publish the first is still in the table, where its ['close']
    listener would have removed it. *)
Lemma failed_write_does_not_unsubscribe :
  let P := samplePlatform "" JNull in
  let ch := channel (fst (run P (start sampleChannel) [GetEvents "a"; GetEvents "a"])) in
  let first := {| res := 0; keepAliveTimer := 1 |} in
  let second := {| res := 2; keepAliveTimer := 3 |} in
  let msg := botMessage P sampleClock "web:a" "hi" None in
  let out := sendMessage P ch sampleClock "web:a" "hi" None in
  snd out = [ StoreMessageDirect msg;
              Write 0 (MessageEvent (jsonOfMessage msg)) Failed;
              Write 2 (MessageEvent (jsonOfMessage msg)) Taken ]
  /\ clientsOf (fst out) "web:a" = [first; second]
  /\ clientsOf (fst (sseClosed ch "web:a" first)) "web:a" = [second].
Proof. vm_compute. repeat split. Qed.

(** ** Room creation *)

Lemma slugify_empty : slugify "" = "".
Proof. reflexivity. Qed.

(** C6 (as amended). A create-room request, its body within the size
    limit, whose name is a string that derives to a non-empty identifier
    already in the registry fails and changes nothing: neither
    [onRegisterGroup] nor [onChatMetadata] runs.  A channel built with
    [onRegisterGroup] answers 409, and the body of that answer carries the
    derived identifier, not the name as typed; a channel built without it
    answers 500. *)
Theorem duplicate_room_is_a_conflict
  (P : Platform) (ch : WebChannel) (groups : Registry) (clk : Clock) (r : Res)
  (chunks : list string) (body name : string) (existing : RegisteredGroup) :
  receiveBody 10000%N "" chunks = Some body ->
  submittedField P "name" body = Some name ->
  slugify name <> "" ->
  groupAt (template ["web:"; slugify name]) groups = Some existing ->
  handleCreateRoom P ch groups clk r chunks
  = (ch,
     if hasOnRegisterGroup ch then
       [ WriteHead r 409 jsonHeaders;
         EndResponse r (Some (Json (JObj [ ("error", JStr "Room already exists");
                                           ("slug", JStr (slugify name)) ]))) ]
     else
       [ WriteHead r 500 jsonHeaders;
         EndResponse r (Some (Json (JObj [ ("error", JStr "Room creation not available") ]))) ])
  /\ filter isSideEffect (snd (handleCreateRoom P ch groups clk r chunks)) = [].
Proof.
  intros Hbody Hfield Hslug Hgroup.
  assert (Hname : name <> "") by (intros ->; apply Hslug, slugify_empty).
  unfold handleCreateRoom.
  destruct (hasOnRegisterGroup ch); cbn [negb]; [|split; reflexivity].
  rewrite Hbody.
  assert (Hrun : createRoomEnd P ch groups clk r body
                 = (ch, respondJson r 409 (JObj [ ("error", JStr "Room already exists");
                                                  ("slug", JStr (slugify name)) ]))).
  { unfold createRoomEnd, submittedField in *.
    destruct (JSON_parse P body) as [parsed|]; [|discriminate].
    destruct (destructure "name" parsed) as [[v|]|]; try discriminate.
    destruct v; try discriminate. injection Hfield as ->.
    apply String.eqb_neq in Hname, Hslug.
    cbn [truthy typeofString stringOf]. rewrite Hname, Hslug. cbn [negb orb].
    rewrite Hgroup. reflexivity. }
  rewrite Hrun. split; reflexivity.
Qed.

(** C6, the claim as it stands fails: with room [web:work] registered, the
    name "Work" is refused with 409 and the answer holds the fields [error]
    and [slug] only; the name as typed is not in it. *)
Lemma conflict_reply_omits_the_name :
  let body := jsonBody "name" "Work" in
  let P := samplePlatform body (JObj [("name", JStr "Work")]) in
  let groups := [("web:work", sampleGroup "Work" "work")] in
  let reply := [("error", JStr "Room already exists"); ("slug", JStr "work")] in
  snd (handleCreateRoom P sampleChannel groups sampleClock 7 [body])
  = [ WriteHead 7 409 jsonHeaders; EndResponse 7 (Some (Json (JObj reply))) ]
  /\ lookupField "name" reply = None
  /\ ~ In (JStr "Work") (map snd reply).
Proof.
  cbv zeta. split; [vm_compute; reflexivity | split; [reflexivity|]].
  simpl. intros [H | [H | []]]; discriminate.
Qed.

(** ** Closed instances *)

(** C4, the claim as it stands fails: a text of three spaces passes the
    check, and for the known room [web:default] the request is answered
    with 200 after a message with empty content went to both callbacks. *)
Lemma blank_text_is_accepted :
  let body := jsonBody "text" "   " in
  let P := samplePlatform body (JObj [("text", JStr "   ")]) in
  let groups := [("web:default", sampleGroup "Web Chat" "default")] in
  let msg := userMessage sampleClock "web:default" "   " in
  JsString.trim "   " = ""
  /\ content msg = ""
  /\ handleSend P sampleChannel groups sampleClock 7 "default" [body]
     = (sampleChannel,
        [ OnChatMetadata "web:default" "2024-01-01T00:00:00.000Z" "Web Chat" "web" false;
          OnMessage "web:default" msg;
          WriteHead 7 200 jsonHeaders;
          EndResponse 7 (Some (Json (JObj [ ("ok", JBool true);
                                            ("message", jsonOfMessage msg) ]))) ]).
Proof. cbv zeta. repeat split; vm_compute; reflexivity. Qed.

(** C9, the claim as it stands fails: the text " hi " is handed on, and
    sent back, as a message whose content is "hi". *)
Lemma padded_text_is_not_kept_verbatim :
  let body := jsonBody "text" " hi " in
  let P := samplePlatform body (JObj [("text", JStr " hi ")]) in
  let groups := [("web:default", sampleGroup "Web Chat" "default")] in
  let msg := userMessage sampleClock "web:default" " hi " in
  snd (handleSend P sampleChannel groups sampleClock 7 "default" [body])
  = [ OnChatMetadata "web:default" "2024-01-01T00:00:00.000Z" "Web Chat" "web" false;
      OnMessage "web:default" msg;
      WriteHead 7 200 jsonHeaders;
      EndResponse 7 (Some (Json (JObj [ ("ok", JBool true);
                                        ("message", jsonOfMessage msg) ]))) ]
  /\ content msg = "hi"
  /\ content msg <> " hi ".
Proof.
  cbv zeta. split; [vm_compute; reflexivity | split; [reflexivity|]].
  vm_compute. discriminate.
Qed.

(** A body without a text field, arriving in two chunks. *)
Lemma send_without_text_is_refused_witness :
  let P := samplePlatform "{}" (JObj []) in
  let groups := [("web:default", sampleGroup "Web Chat" "default")] in
  exists message,
    handleSend P sampleChannel groups sampleClock 7 "default" ["{"; "}"]
    = (sampleChannel, respondJson 7 400 (errorBody message))
    /\ filter isSideEffect
         (snd (handleSend P sampleChannel groups sampleClock 7 "default" ["{"; "}"])) = [].
Proof.
  cbv zeta.
  apply (send_without_text_is_refused
           (samplePlatform "{}" (JObj [])) sampleChannel
           [("web:default", sampleGroup "Web Chat" "default")] sampleClock 7 "default"
           ["{"; "}"] "{}").
  - reflexivity.
  - left. reflexivity.
Defined.

(** A valid text for the room [nonexistent], which the registry lacks. *)
Lemma send_to_unknown_room_is_not_found_witness :
  let body := jsonBody "text" "Hello" in
  let P := samplePlatform body (JObj [("text", JStr "Hello")]) in
  let groups := [("web:default", sampleGroup "Web Chat" "default")] in
  handleSend P sampleChannel groups sampleClock 7 "nonexistent" [body]
  = (sampleChannel, respondJson 7 404 (errorBody "Room not found"))
  /\ filter isSideEffect
       (snd (handleSend P sampleChannel groups sampleClock 7 "nonexistent" [body])) = [].
Proof.
  cbv zeta.
  apply (send_to_unknown_room_is_not_found
           (samplePlatform (jsonBody "text" "Hello") (JObj [("text", JStr "Hello")]))
           sampleChannel [("web:default", sampleGroup "Web Chat" "default")] sampleClock 7
           "nonexistent" [jsonBody "text" "Hello"] (jsonBody "text" "Hello") "Hello").
  - reflexivity.
  - reflexivity.
  - discriminate.
  - reflexivity.
Defined.

(** "Hello agent" sent to [web:default] while one subscriber, whose
    connection is broken, listens there. *)
Lemma send_delivers_one_trimmed_message_witness :
  let body := jsonBody "text" "Hello agent" in
  let P := samplePlatform body (JObj [("text", JStr "Hello agent")]) in
  let groups := [("web:default", sampleGroup "Web Chat" "default")] in
  let ch := channel (fst (run P (start sampleChannel) [GetEvents "default"])) in
  let msg := userMessage sampleClock "web:default" "Hello agent" in
  content msg = "Hello agent"
  /\ handleSend P ch groups sampleClock 7 "default" [body]
     = (ch,
        [ OnChatMetadata "web:default" "2024-01-01T00:00:00.000Z" "Web Chat" "web" false;
          OnMessage "web:default" msg;
          Write 0 (MessageEvent (jsonOfMessage msg)) Failed;
          WriteHead 7 200 jsonHeaders;
          EndResponse 7 (Some (Json (JObj [ ("ok", JBool true);
                                            ("message", jsonOfMessage msg) ]))) ]).
Proof.
  cbv zeta.
  assert (Hne : "Hello agent" <> "") by discriminate.
  pose proof (send_delivers_one_trimmed_message
                (samplePlatform (jsonBody "text" "Hello agent")
                                (JObj [("text", JStr "Hello agent")]))
                (channel (fst (run (samplePlatform (jsonBody "text" "Hello agent")
                                                   (JObj [("text", JStr "Hello agent")]))
                                   (start sampleChannel) [GetEvents "default"])))
                [("web:default", sampleGroup "Web Chat" "default")] sampleClock 7
                "default" [jsonBody "text" "Hello agent"] (jsonBody "text" "Hello agent")
                "Hello agent" (sampleGroup "Web Chat" "default")
                eq_refl eq_refl Hne eq_refl) as [_ [Hsame [_ Hrun]]].
  split; [exact (Hsame eq_refl) | exact Hrun].
Defined.

(** "Work Stuff!!" while [web:work-stuff] is registered, on a channel with
    and on a channel without [onRegisterGroup]. *)
Lemma duplicate_room_is_a_conflict_witness :
  let body := jsonBody "name" "Work Stuff!!" in
  let P := samplePlatform body (JObj [("name", JStr "Work Stuff!!")]) in
  let groups := [("web:work-stuff", sampleGroup "Work stuff" "work-stuff")] in
  let bare := newWebChannel 0 "test-token-123" false in
  (handleCreateRoom P sampleChannel groups sampleClock 7 [body]
   = (sampleChannel,
      [ WriteHead 7 409 jsonHeaders;
        EndResponse 7 (Some (Json (JObj [ ("error", JStr "Room already exists");
                                          ("slug", JStr "work-stuff") ]))) ])
   /\ filter isSideEffect
        (snd (handleCreateRoom P sampleChannel groups sampleClock 7 [body])) = [])
  /\ (handleCreateRoom P bare groups sampleClock 7 [body]
      = (bare,
         [ WriteHead 7 500 jsonHeaders;
           EndResponse 7 (Some (Json (JObj [ ("error", JStr "Room creation not available") ]))) ])
      /\ filter isSideEffect (snd (handleCreateRoom P bare groups sampleClock 7 [body])) = []).
Proof.
  cbv zeta. split.
  - apply (duplicate_room_is_a_conflict
             (samplePlatform (jsonBody "name" "Work Stuff!!")
                             (JObj [("name", JStr "Work Stuff!!")]))
             sampleChannel [("web:work-stuff", sampleGroup "Work stuff" "work-stuff")]
             sampleClock 7 [jsonBody "name" "Work Stuff!!"] (jsonBody "name" "Work Stuff!!")
             "Work Stuff!!" (sampleGroup "Work stuff" "work-stuff")).
    + reflexivity.
    + reflexivity.
    + discriminate.
    + reflexivity.
  - apply (duplicate_room_is_a_conflict
             (samplePlatform (jsonBody "name" "Work Stuff!!")
                             (JObj [("name", JStr "Work Stuff!!")]))
             (newWebChannel 0 "test-token-123" false)
             [("web:work-stuff", sampleGroup "Work stuff" "work-stuff")]
             sampleClock 7 [jsonBody "name" "Work Stuff!!"] (jsonBody "name" "Work Stuff!!")
             "Work Stuff!!" (sampleGroup "Work stuff" "work-stuff")).
    + reflexivity.
    + reflexivity.
    + discriminate.
    + reflexivity.
Defined.

(* ================================================================== *)
(** * Further properties of the gateway *)
(* ================================================================== *)

(** ** Reading a request body *)

Lemma append_empty_r (s : string) : String.append s "" = s.
Proof. induction s as [|c s IH]; simpl; [reflexivity | now rewrite IH]. Qed.

Lemma append_assoc (a b c : string) :
  String.append (String.append a b) c = String.append a (String.append b c).
Proof. induction a as [|x a IH]; simpl; [reflexivity | now rewrite IH]. Qed.

Lemma length_append (a b : string) :
  String.length (String.append a b) = String.length a + String.length b.
Proof. induction a as [|x a IH]; simpl; [reflexivity | now rewrite IH]. Qed.

Lemma receiveBody_from (limit : N) (chunks : list string) :
  forall body,
    (N.of_nat (String.length body) <= limit)%N ->
    receiveBody limit body chunks
    = if (limit <? N.of_nat (String.length (String.append body (joinChunks chunks))))%N
      then None
      else Some (String.append body (joinChunks chunks)).
Proof.
  induction chunks as [|chunk rest IH]; intros body Hbody; simpl.
  - rewrite append_empty_r.
    destruct (N.ltb_spec limit (N.of_nat (String.length body))); [lia | reflexivity].
  - rewrite <- append_assoc.
    destruct (N.ltb_spec limit (N.of_nat (String.length (String.append body chunk))))
      as [Hover | Hfits].
    + destruct (N.ltb_spec limit
                  (N.of_nat (String.length
                               (String.append (String.append body chunk) (joinChunks rest)))))
        as [_ | Hfits]; [reflexivity|].
      rewrite length_append in Hfits. lia.
    + apply IH, Hfits.
Qed.

Lemma receiveBody_joined (limit : N) (chunks : list string) :
  receiveBody limit "" chunks
  = if (limit <? N.of_nat (String.length (joinChunks chunks)))%N
    then None
    else Some (joinChunks chunks).
Proof. apply (receiveBody_from limit chunks ""). simpl. lia. Qed.

(** X1. The ['data'] listener appends [chunk.toString()] of each chunk: the
    body that reaches the ['end'] listener is the concatenation of the
    texts the chunks decode to one by one, and the request is refused
    exactly when that concatenation is longer than the limit (so a body is
    never refused for the way its decoded texts are spread over chunks,
    and a character that a chunk boundary cuts counts as it decodes in
    each piece). *)
Theorem body_is_the_decoded_chunks_joined
  (toString : Buffer -> string) (limit : N) (buffers : list Buffer) :
  receiveBody limit "" (chunkTexts toString buffers)
  = if (limit <? N.of_nat (String.length (joinChunks (chunkTexts toString buffers))))%N
    then None
    else Some (joinChunks (chunkTexts toString buffers)).
Proof. apply receiveBody_joined. Qed.

Lemma receiveBody_same_text (limit : N) (chunks chunks' : list string) :
  joinChunks chunks = joinChunks chunks' ->
  receiveBody limit "" chunks = receiveBody limit "" chunks'.
Proof. intro H. now rewrite !receiveBody_joined, H. Qed.

Lemma receiveBody_too_long (limit : N) (chunks : list string) :
  (limit < N.of_nat (String.length (joinChunks chunks)))%N ->
  receiveBody limit "" chunks = None.
Proof.
  intro Hlong. rewrite receiveBody_joined. apply N.ltb_lt in Hlong. now rewrite Hlong.
Qed.

(** X2. [handleSend] and [handleCreateRoom] depend on the chunks of a body
    only through the concatenation of the texts the chunks decode to: two
    requests whose decoded chunk texts join to the same string get the
    same answer.  When that string is longer than 100000 (send) or 10000
    (create, with [onRegisterGroup]) code units the answer is 413, the
    request is destroyed and nothing else happens. *)
Theorem handlers_depend_on_the_decoded_body_only
  (toString : Buffer -> string)
  (P : Platform) (ch : WebChannel) (groups : Registry) (clk : Clock) (r : Res)
  (room : string) (buffers buffers' : list Buffer) :
  joinChunks (chunkTexts toString buffers) = joinChunks (chunkTexts toString buffers') ->
  handleSend P ch groups clk r room (chunkTexts toString buffers)
  = handleSend P ch groups clk r room (chunkTexts toString buffers')
  /\ handleCreateRoom P ch groups clk r (chunkTexts toString buffers)
     = handleCreateRoom P ch groups clk r (chunkTexts toString buffers')
  /\ ((100000 < N.of_nat (String.length (joinChunks (chunkTexts toString buffers))))%N ->
      handleSend P ch groups clk r room (chunkTexts toString buffers)
      = (ch, [ WriteHead r 413 jsonHeaders;
               EndResponse r (Some (Json (errorBody "Payload too large")));
               DestroyRequest r ]))
  /\ ((10000 < N.of_nat (String.length (joinChunks (chunkTexts toString buffers))))%N ->
      hasOnRegisterGroup ch = true ->
      handleCreateRoom P ch groups clk r (chunkTexts toString buffers)
      = (ch, [ WriteHead r 413 jsonHeaders;
               EndResponse r (Some (Json (errorBody "Payload too large")));
               DestroyRequest r ])).
Proof.
  intro Hsame. unfold handleSend, handleCreateRoom. repeat split.
  - now rewrite (receiveBody_same_text _ _ _ Hsame).
  - now rewrite (receiveBody_same_text _ _ _ Hsame).
  - intro Hlong. now rewrite (receiveBody_too_long _ _ Hlong).
  - intros Hlong Hreg. now rewrite (receiveBody_too_long _ _ Hlong), Hreg.
Qed.

(** The body [{}] in one chunk and in two. *)
Lemma decoded_body_instance :
  let P := samplePlatform "{}" (JObj []) in
  handleSend P sampleChannel [] sampleClock 7 "default"
    (chunkTexts sampleToString [[Byte.x7b]; [Byte.x7d]])
  = handleSend P sampleChannel [] sampleClock 7 "default"
      (chunkTexts sampleToString [[Byte.x7b; Byte.x7d]]).
Proof.
  cbv zeta.
  apply (handlers_depend_on_the_decoded_body_only sampleToString
           (samplePlatform "{}" (JObj [])) sampleChannel [] sampleClock 7 "default"
           [[Byte.x7b]; [Byte.x7d]] [[Byte.x7b; Byte.x7d]]).
  reflexivity.
Defined.

(** ** Unsubscribing *)

Lemma set_same {V : Type} (k : string) (v : V) (m : JsMap.t V) :
  JsMap.get k m = Some v -> JsMap.set k v m = m.
Proof.
  induction m as [|[k0 v0] m IH]; simpl; [discriminate|].
  destruct (String.eqb_spec k k0) as [->|_]; intro H.
  - now injection H as ->.
  - now rewrite IH.
Qed.

Lemma set_set {V : Type} (k : string) (v v' : V) (m : JsMap.t V) :
  JsMap.set k v' (JsMap.set k v m) = JsMap.set k v' m.
Proof.
  induction m as [|[k0 v0] m IH]; simpl.
  - now rewrite String.eqb_refl.
  - destruct (String.eqb_spec k k0) as [->|Hne]; simpl.
    + now rewrite String.eqb_refl.
    + apply String.eqb_neq in Hne. now rewrite Hne, IH.
Qed.

Lemma delete_absent {V : Type} (k : string) (m : JsMap.t V) :
  JsMap.get k m = None -> JsMap.delete k m = m.
Proof.
  induction m as [|[k0 v0] m IH]; simpl; [reflexivity|].
  destruct (String.eqb k k0); [discriminate|]. intro H. now rewrite IH.
Qed.

Lemma delete_set {V : Type} (k : string) (v : V) (m : JsMap.t V) :
  JsMap.delete k (JsMap.set k v m) = JsMap.delete k m.
Proof.
  induction m as [|[k0 v0] m IH]; simpl.
  - now rewrite String.eqb_refl.
  - destruct (String.eqb_spec k k0) as [->|Hne]; simpl.
    + now rewrite String.eqb_refl.
    + apply String.eqb_neq in Hne. now rewrite Hne, IH.
Qed.

Lemma filter_twice {A : Type} (f : A -> bool) (l : list A) :
  filter f (filter f l) = filter f l.
Proof.
  induction l as [|x l IH]; simpl; [reflexivity|].
  destruct (f x) eqn:Hx; simpl; [rewrite Hx; f_equal|]; exact IH.
Qed.

Lemma filter_all {A : Type} (f : A -> bool) (l : list A) :
  (forall x, In x l -> f x = true) -> filter f l = l.
Proof.
  induction l as [|x l IH]; simpl; intro H; [reflexivity|].
  rewrite (H x (or_introl eq_refl)). f_equal. apply IH. intros y Hy. apply H. now right.
Qed.

Lemma withClients_same (ch : WebChannel) : withClients ch (clientsByRoom ch) = ch.
Proof. destruct ch. reflexivity. Qed.

(** X3. The ['close'] listener is idempotent: running it a second time for
    the same subscriber leaves the channel as the first run left it. *)
Theorem closing_twice_is_closing_once (ch : WebChannel) (jid : string) (client : SseClient) :
  fst (sseClosed (fst (sseClosed ch jid client)) jid client) = fst (sseClosed ch jid client).
Proof.
  unfold sseClosed. cbn [fst withClients clientsByRoom].
  destruct (JsMap.get jid (clientsByRoom ch)) as [clients|] eqn:Hget.
  - destruct (filter (fun c => negb (sameClient c client)) clients) as [|c0 kept] eqn:Hkept;
      cbn [List.length Nat.eqb].
    + rewrite get_delete, String.eqb_refl. reflexivity.
    + rewrite get_set, String.eqb_refl, <- Hkept, filter_twice, Hkept.
      cbn [List.length Nat.eqb]. rewrite set_set. reflexivity.
  - rewrite Hget. reflexivity.
Qed.

Lemma reached_noEmptyRoom (P : Platform) (optPort : nat) (optToken : string)
  (optRegister : bool) (ops : list Op) :
  noEmptyRoom (channel (fst (run P (start (newWebChannel optPort optToken optRegister)) ops))).
Proof.
  apply (run_invariant P (fun w => noEmptyRoom (channel w))).
  - intros w op. apply noEmptyRoom_step.
  - intros jid clients Hget. discriminate.
Qed.

Lemma sseClosed_stranger (ch : WebChannel) (jid : string) (client : SseClient) :
  noEmptyRoom ch ->
  (forall c, In c (clientsOf ch jid) -> sameClient c client = false) ->
  fst (sseClosed ch jid client) = ch.
Proof.
  intros Hinv Hnone. unfold sseClosed, clientsOf in *. cbn [fst].
  destruct (JsMap.get jid (clientsByRoom ch)) as [clients|] eqn:Hget;
    [|apply withClients_same].
  rewrite filter_all by (intros c Hc; now rewrite (Hnone c Hc)).
  destruct clients as [|c0 rest]; [now apply Hinv in Hget|].
  cbn [List.length Nat.eqb]. rewrite (set_same _ _ _ Hget). apply withClients_same.
Qed.

(** X4. In every state the channel reaches, the ['close'] listener of a
    subscriber that is not (or no longer) in the list of its room changes
    nothing. *)
Theorem closing_a_stranger_changes_nothing
  (P : Platform) (optPort : nat) (optToken : string) (optRegister : bool) (ops : list Op)
  (jid : string) (client : SseClient) :
  let ch := channel (fst (run P (start (newWebChannel optPort optToken optRegister)) ops)) in
  (forall c, In c (clientsOf ch jid) -> sameClient c client = false) ->
  fst (sseClosed ch jid client) = ch.
Proof.
  intros ch Hnone. apply sseClosed_stranger; [apply reached_noEmptyRoom | exact Hnone].
Qed.

(** The subscriber of room [web:b] closing under the key [web:a]. *)
Lemma closing_a_stranger_instance :
  let P := samplePlatform "" JNull in
  let ch := channel (fst (run P (start sampleChannel) [GetEvents "a"; GetEvents "b"])) in
  fst (sseClosed ch "web:a" {| res := 2; keepAliveTimer := 3 |}) = ch.
Proof.
  cbv zeta.
  apply (closing_a_stranger_changes_nothing
           (samplePlatform "" JNull) 0 "test-token-123" true [GetEvents "a"; GetEvents "b"]
           "web:a" {| res := 2; keepAliveTimer := 3 |}).
  intros c [<- | []]. reflexivity.
Defined.

(** X5. Subscribing and then closing is a round trip: in every state the
    channel reaches, opening a stream for a room and running the ['close']
    listener of the subscriber just registered gives back the channel as it
    was, with the same rooms in the same order. *)
Theorem subscribe_then_close_restores_the_channel
  (P : Platform) (optPort : nat) (optToken : string) (optRegister : bool) (ops : list Op)
  (room : string) :
  let w := fst (run P (start (newWebChannel optPort optToken optRegister)) ops) in
  let client := {| res := nextHandle w; keepAliveTimer := S (nextHandle w) |} in
  fst (sseClosed (fst (handleSse P (channel w) (nextHandle w) (S (nextHandle w)) room))
         (template ["web:"; room]) client)
  = channel w.
Proof.
  intros w client.
  pose proof (reached_noEmptyRoom P optPort optToken optRegister ops) as Hinv.
  destruct (reached_oneRoomEach P optPort optToken optRegister ops) as [Hlt _].
  fold w in Hinv, Hlt. set (ch := channel w) in *. set (jid := template ["web:"; room]).
  assert (Hself : sameClient client client = true)
    by (unfold sameClient; now rewrite !Nat.eqb_refl).
  assert (Hold : forall c, In c (clientsOf ch jid) -> negb (sameClient c client) = true).
  { intros c Hc. specialize (Hlt jid c Hc). unfold sameClient, client. cbn [res].
    destruct (Nat.eqb_spec (res c) (nextHandle w)); [lia | reflexivity]. }
  unfold sseClosed, handleSse, JsMap.has, clientsOf in *.
  cbn [fst withClients clientsByRoom res keepAliveTimer]. fold jid.
  destruct (JsMap.get jid (clientsByRoom ch)) as [old|] eqn:Hget; cbn [negb].
  - rewrite Hget, get_set, String.eqb_refl, filter_app. cbn [filter].
    fold client. rewrite Hself. cbn [negb]. rewrite app_nil_r, (filter_all _ old Hold).
    destruct old as [|c0 rest]; [now apply Hinv in Hget|].
    cbn [List.length Nat.eqb]. rewrite set_set, (set_same _ _ _ Hget).
    transitivity (withClients ch (clientsByRoom ch)); [reflexivity | apply withClients_same].
  - rewrite get_set, String.eqb_refl, set_set, get_set, String.eqb_refl.
    cbn [app filter]. fold client. rewrite Hself. cbn [negb List.length Nat.eqb].
    rewrite delete_set, (delete_absent _ _ Hget).
    transitivity (withClients ch (clientsByRoom ch)); [reflexivity | apply withClients_same].
Qed.

(** ** After a subscriber is gone *)

Lemma writesTo_elsewhere (r0 : Res) (tr : Trace) :
  (forall r chunk outcome, In (Write r chunk outcome) tr -> r <> r0) ->
  writesTo r0 tr = [].
Proof.
  induction tr as [|e tr IH]; intro H; [reflexivity|].
  assert (Hrest : writesTo r0 tr = []) by (apply IH; intros; eapply H; right; eassumption).
  destruct e as [? ? ?|r1 chunk o|? ?|?|?|? ? ?|?|?|? ? ? ? ?|? ?|? ?|?|]; simpl; try exact Hrest.
  destruct (Nat.eqb_spec r1 r0) as [E|_]; [|exact Hrest].
  exfalso. eapply H; [left; reflexivity | exact E].
Qed.

Lemma handleCreateRoom_no_write (P : Platform) (ch : WebChannel) groups clk r chunks :
  writes (snd (handleCreateRoom P ch groups clk r chunks)) = [].
Proof.
  unfold handleCreateRoom. destruct (negb (hasOnRegisterGroup ch)); [reflexivity|].
  destruct (receiveBody _ _ _) as [body|]; [|reflexivity].
  unfold createRoomEnd.
  destruct (JSON_parse P body) as [v|]; [|reflexivity].
  destruct (destructure "name" v) as [t|]; [|reflexivity].
  destruct (negb (truthy t) || negb (typeofString t)); [reflexivity|].
  destruct (negb (truthy _)); [reflexivity|].
  destruct (groupAt _ groups); reflexivity.
Qed.

Lemma writes_none_writesTo (r0 : Res) (tr : Trace) : writes tr = [] -> writesTo r0 tr = [].
Proof.
  induction tr as [|e tr IH]; [reflexivity|].
  destruct e as [? ? ?|r1 chunk o|? ?|?|?|? ? ?|?|?|? ? ? ? ?|? ?|? ?|?|]; simpl;
    try exact IH. discriminate.
Qed.

Lemma disconnect_no_write (ch : WebChannel) : writes (snd (disconnect ch)) = [].
Proof.
  unfold disconnect. cbn [snd withConnected clientsByRoom]. rewrite writes_app.
  assert (H : writes (flat_map (fun entry : string * list SseClient =>
                                  flat_map endClient (snd entry)) (clientsByRoom ch)) = []).
  { induction (clientsByRoom ch) as [|[k clients] m IH]; [reflexivity|].
    cbn [flat_map snd]. rewrite writes_app, IH, app_nil_r.
    induction clients as [|c clients IHc]; [reflexivity|]. exact IHc. }
  rewrite H. destruct (server ch); reflexivity.
Qed.

Lemma handleSend_writesTo_retired (P : Platform) (ch : WebChannel) groups clk r room chunks r0 :
  (forall jid c, In c (clientsOf ch jid) -> res c <> r0) ->
  writesTo r0 (snd (handleSend P ch groups clk r room chunks)) = [].
Proof.
  intro Hret.
  destruct (handleSend_cases P ch groups clk r room chunks)
    as [[status [message [extra [Htr [Hextra _]]]]]
       | [body [text [group [_ [_ [_ [_ Htr]]]]]]]]; rewrite Htr.
  - now destruct (refusal_has_no_side_effect r status message extra Hextra) as [_ [Hto _]].
  - rewrite acceptedSend_writesTo. apply writesTo_broadcast_other. apply Hret.
Qed.

Lemma retired_step (P : Platform) (r0 : Res) (w : World) (op : Op) :
  retired r0 w -> ticksFor r0 op = false ->
  retired r0 (fst (step P w op)) /\ writesTo r0 (snd (step P w op)) = [].
Proof.
  intros [Hlt Hret] Htick. split.
  - destruct (step_table P w op) as [Heq Hle | room Hch Hn | jid client Hch Hn | Hnil Hn];
      unfold retired.
    + split; [lia|]. intros jid c. rewrite (clientsOf_same_table _ _ _ Heq). apply Hret.
    + rewrite Hch, Hn. split; [lia|]. intros jid c. rewrite handleSse_clientsOf.
      destruct (String.eqb jid _); [|apply Hret].
      intro Hin. apply in_app_or in Hin as [Hin | [<- | []]]; [eapply Hret, Hin|].
      cbn [res]. lia.
    + rewrite Hch, Hn. split; [exact Hlt|]. intros j c. rewrite sseClosed_clientsOf.
      destruct (String.eqb j jid); [|apply Hret].
      intro Hin. apply filter_In in Hin as [Hin _]. eapply Hret, Hin.
    + rewrite Hn. split; [exact Hlt|]. intros jid c.
      now rewrite (clientsOf_empty_table _ _ Hnil).
  - destruct op; cbn [step fst snd channel nextHandle].
    + reflexivity.
    + unfold sendMessage. destruct (negb _); [reflexivity|]. cbn [snd writesTo].
      apply writesTo_broadcast_other. apply Hret.
    + apply writes_none_writesTo, disconnect_no_write.
    + reflexivity.
    + cbn [handleSse snd write writesTo].
      destruct (Nat.eqb_spec (nextHandle w) r0); [lia | reflexivity].
    + apply handleSend_writesTo_retired, Hret.
    + reflexivity.
    + reflexivity.
    + apply writes_none_writesTo, handleCreateRoom_no_write.
    + reflexivity.
    + cbn [ticksFor] in Htick. cbn [keepAlive snd write writesTo]. now rewrite Htick.
Qed.

Lemma retired_run (P : Platform) (r0 : Res) (ops : list Op) :
  forall w, retired r0 w -> forallb (fun op => negb (ticksFor r0 op)) ops = true ->
            writesTo r0 (snd (run P w ops)) = [].
Proof.
  induction ops as [|op rest IH]; intros w Hret Hops; [reflexivity|].
  cbn [forallb] in Hops. apply andb_true_iff in Hops as [Hop Hrest].
  apply negb_true_iff in Hop.
  destruct (retired_step P r0 w op Hret Hop) as [Hret1 Hnone].
  simpl. destruct (step P w op) as [w1 t1]. cbn [fst snd] in Hret1, Hnone.
  specialize (IH w1 Hret1 Hrest). destruct (run P w1 rest) as [w2 t2]. cbn [snd] in *.
  now rewrite writesTo_app, Hnone, IH.
Qed.

Lemma NoDup_res_same (l : list SseClient) (c c' : SseClient) :
  NoDup (map res l) -> In c l -> In c' l -> res c = res c' -> c = c'.
Proof.
  induction l as [|x l IH]; intros Hnd Hc Hc' E; [contradiction|].
  inversion Hnd as [|y ys Hnotin Hnd']; subst.
  destruct Hc as [-> | Hc], Hc' as [-> | Hc'].
  - reflexivity.
  - exfalso. apply Hnotin. rewrite E. now apply in_map.
  - exfalso. apply Hnotin. rewrite <- E. now apply in_map.
  - now apply IH.
Qed.

(** X6. A subscriber whose connection closed is never written to again:
    once the ['close'] listener of a registered subscriber has run, no
    later operation of the channel (publishes by [sendMessage] and
    [handleSend], new subscriptions, shutdown) writes anything to its
    response, as long as its keepalive callback, whose interval the
    listener cleared, does not run. *)
Theorem closed_subscriber_is_never_written_again
  (P : Platform) (optPort : nat) (optToken : string) (optRegister : bool)
  (before after : list Op) (jid : string) (client : SseClient) :
  let w := fst (run P (start (newWebChannel optPort optToken optRegister)) before) in
  In client (clientsOf (channel w) jid) ->
  forallb (fun op => negb (ticksFor (res client) op)) after = true ->
  writesTo (res client) (snd (run P w (ResponseClosed jid client :: after))) = [].
Proof.
  intros w Hin Hafter.
  destruct (reached_oneRoomEach P optPort optToken optRegister before) as [Hlt [Hroom [Hnd _]]].
  fold w in Hlt, Hroom, Hnd.
  set (w1 := {| channel := fst (sseClosed (channel w) jid client);
                nextHandle := nextHandle w |}).
  assert (Hret : retired (res client) w1).
  { split; [eapply Hlt, Hin|]. intros j c. cbn [w1 channel].
    rewrite sseClosed_clientsOf. destruct (String.eqb_spec j jid) as [->|Hne].
    - intros Hc E. apply filter_In in Hc as [Hc Hother].
      assert (c = client) by (eapply NoDup_res_same; [apply Hnd | | | ]; eassumption).
      subst c. unfold sameClient in Hother. now rewrite !Nat.eqb_refl in Hother.
    - intros Hc E. apply Hne. eapply Hroom; eassumption. }
  pose proof (retired_run P (res client) after w1 Hret Hafter) as Hnone.
  cbn [run step]. fold w1.
  change (fst (sseClosed (channel w) jid client), snd (sseClosed (channel w) jid client))
    with (sseClosed (channel w) jid client).
  cbn [fst snd]. fold w1. destruct (run P w1 after) as [w2 t2]. cbn [snd] in *.
  exact Hnone.
Qed.

(** The first of two subscribers of [web:a] closes; two publishes, a new
    subscription and the shutdown follow. *)
Lemma closed_subscriber_instance :
  let P := samplePlatform "" JNull in
  let w := fst (run P (start sampleChannel) [GetEvents "a"; GetEvents "a"]) in
  writesTo 0
    (snd (run P w [ ResponseClosed "web:a" {| res := 0; keepAliveTimer := 1 |};
                    CallSendMessage sampleClock "web:a" "hi" None;
                    GetEvents "a";
                    CallSendMessage sampleClock "web:a" "again" None;
                    CallDisconnect ])) = [].
Proof.
  cbv zeta.
  apply (closed_subscriber_is_never_written_again
           (samplePlatform "" JNull) 0 "test-token-123" true
           [GetEvents "a"; GetEvents "a"]
           [ CallSendMessage sampleClock "web:a" "hi" None;
             GetEvents "a";
             CallSendMessage sampleClock "web:a" "again" None;
             CallDisconnect ]
           "web:a" {| res := 0; keepAliveTimer := 1 |}).
  - left. reflexivity.
  - reflexivity.
Defined.

(** X7. After [disconnect] nothing of the old subscriptions is left to act
    on: a publish by [sendMessage] or [handleSend] writes to nobody, a
    ['close'] listener that runs late leaves the table empty, and a second
    [disconnect] ends no response and clears no timer (it only closes the
    server again, if there was one). *)
Theorem after_disconnect_nobody_is_served (P : Platform) (ch : WebChannel) :
  let down := fst (disconnect ch) in
  (forall clk jid text metadata, writes (snd (sendMessage P down clk jid text metadata)) = [])
  /\ (forall groups clk r room chunks,
        writes (snd (handleSend P down groups clk r room chunks)) = [])
  /\ (forall jid client, clientsByRoom (fst (sseClosed down jid client)) = [])
  /\ snd (disconnect down) = (if server ch then [CloseServer] else [])
  /\ isConnected down = false.
Proof.
  intro down. repeat split.
  - intros clk jid text metadata. unfold sendMessage.
    destruct (negb _); [reflexivity|]. cbn [snd writes]. now rewrite writes_broadcast.
  - intros groups clk r room chunks.
    destruct (handleSend_cases P down groups clk r room chunks)
      as [[status [message [extra [Htr [Hextra _]]]]]
         | [body [text [group [_ [_ [_ [_ Htr]]]]]]]]; rewrite Htr.
    + now destruct (refusal_has_no_side_effect r status message extra Hextra) as [Hw _].
    + now rewrite acceptedSend_writes.
Qed.

(** ** The identifiers that [slugify] derives *)

Lemma slugify_shaped (name : string) :
  collapsed false (slugify name) = true
  /\ startsWithDash (slugify name) = false
  /\ endsWithDash (slugify name) = false.
Proof.
  unfold slugify, slugifyWith.
  apply (stripEdgeDashes_shape _ false), replaceRuns_collapsed.
Qed.

(** X8. The identifiers are exactly the fixed points of the derivation: a
    string is its own derived identifier if and only if it is made of
    [[a-z0-9]] and single dashes and neither begins nor ends with a dash.
    In particular every derived identifier has that shape. *)
Theorem identifiers_are_the_fixed_points (s : string) :
  slugify s = s
  <-> collapsed false s = true /\ startsWithDash s = false /\ endsWithDash s = false.
Proof.
  split.
  - intro Hfix. rewrite <- Hfix. apply slugify_shaped.
  - intros [Hc [Hs He]]. unfold slugify, slugifyWith.
    pose proof (collapsed_allSlugChars s false Hc) as Hall.
    rewrite (toLowerCase_slug s Hall), (trim_slug s Hall), (collapsed_replaceRuns s false Hc).
    unfold JsString.stripEdgeDashes.
    rewrite (dropLeadingDash_id s Hs). apply dropTrailingDash_id, He.
Qed.

Lemma lowerChar_alnum (c : ascii) :
  JsString.isLowerAlnum (JsString.lowerChar c) = isAsciiAlnum c.
Proof. by_code_unit c. Qed.

Lemma space_not_alnum (c : ascii) :
  JsString.isWhiteSpace c = true -> JsString.isLowerAlnum c = false.
Proof. by_code_unit c. Qed.

Lemma dash_not_alnum (c : ascii) :
  JsString.isDash c = true -> JsString.isLowerAlnum c = false.
Proof. by_code_unit c. Qed.

Lemma hasLowerAlnum_toLowerCase (s : string) :
  hasLowerAlnum (JsString.toLowerCase s) = hasAsciiAlnum s.
Proof.
  induction s as [|c r IH]; simpl; [reflexivity|]. now rewrite lowerChar_alnum, IH.
Qed.

Lemma hasLowerAlnum_trimStart (s : string) :
  hasLowerAlnum (JsString.trimStart s) = hasLowerAlnum s.
Proof.
  induction s as [|c r IH]; simpl; [reflexivity|].
  destruct (JsString.isWhiteSpace c) eqn:Hc; [|reflexivity].
  now rewrite (space_not_alnum c Hc).
Qed.

Lemma hasLowerAlnum_trimEnd (s : string) :
  hasLowerAlnum (JsString.trimEnd s) = hasLowerAlnum s.
Proof.
  induction s as [|c r IH]; simpl; [reflexivity|].
  destruct (JsString.trimEnd r) as [|c' r'] eqn:Hr.
  - rewrite <- IH. simpl. destruct (JsString.isWhiteSpace c) eqn:Hc; [|reflexivity].
    simpl. now rewrite (space_not_alnum c Hc).
  - simpl. rewrite <- IH. reflexivity.
Qed.

Lemma hasLowerAlnum_replaceRuns (s : string) :
  forall b, hasLowerAlnum (JsString.replaceRuns b s) = hasLowerAlnum s.
Proof.
  induction s as [|c r IH]; intro b; simpl; [reflexivity|].
  destruct (JsString.isLowerAlnum c) eqn:Hc; simpl.
  - now rewrite Hc.
  - destruct b; simpl; apply IH.
Qed.

Lemma hasLowerAlnum_dropLeadingDash (s : string) :
  hasLowerAlnum (JsString.dropLeadingDash s) = hasLowerAlnum s.
Proof.
  destruct s as [|c r]; simpl; [reflexivity|].
  destruct (JsString.isDash c) eqn:Hc; [|reflexivity]. now rewrite (dash_not_alnum c Hc).
Qed.

Lemma hasLowerAlnum_dropTrailingDash (s : string) :
  hasLowerAlnum (JsString.dropTrailingDash s) = hasLowerAlnum s.
Proof.
  induction s as [|c r IH]; [reflexivity|].
  destruct r as [|c' r'].
  - simpl. destruct (JsString.isDash c) eqn:Hc; [|reflexivity].
    simpl. now rewrite (dash_not_alnum c Hc).
  - change (JsString.dropTrailingDash (String c (String c' r')))
      with (String c (JsString.dropTrailingDash (String c' r'))).
    transitivity (JsString.isLowerAlnum c
                  || hasLowerAlnum (JsString.dropTrailingDash (String c' r')));
      [reflexivity|].
    rewrite IH. reflexivity.
Qed.

Lemma hasLowerAlnum_slugify (name : string) :
  hasLowerAlnum (slugify name) = hasAsciiAlnum name.
Proof.
  unfold slugify, slugifyWith, JsString.stripEdgeDashes, JsString.trim.
  now rewrite hasLowerAlnum_dropTrailingDash, hasLowerAlnum_dropLeadingDash,
    hasLowerAlnum_replaceRuns, hasLowerAlnum_trimEnd, hasLowerAlnum_trimStart,
    hasLowerAlnum_toLowerCase.
Qed.

Lemma derived_empty (t : string) :
  JsString.stripEdgeDashes (JsString.replaceRuns false t) = "" <-> hasLowerAlnum t = false.
Proof.
  rewrite <- (hasLowerAlnum_replaceRuns t false), <- hasLowerAlnum_dropLeadingDash,
    <- hasLowerAlnum_dropTrailingDash.
  fold (JsString.stripEdgeDashes (JsString.replaceRuns false t)).
  destruct (stripEdgeDashes_shape _ false (replaceRuns_collapsed t false)) as [Hc [Hs _]].
  destruct (JsString.stripEdgeDashes (JsString.replaceRuns false t)) as [|c r];
    [split; reflexivity|].
  split; [discriminate|]. simpl in *.
  destruct (JsString.isLowerAlnum c); [discriminate|].
  rewrite Hs in Hc. discriminate.
Qed.

(** X9. When a name derives to the empty identifier, which
    [handleCreateRoom] refuses as an invalid room name.  Whatever the
    lower-casing and the trimming do, the derived identifier is empty
    exactly when the lower-cased, trimmed name holds no [[a-z0-9]]; with
    the gateway's [trim], exactly when the lower-cased name holds none.
    For the names of this model, whose code units are all below 256 (so
    not for a name with U+212A KELVIN SIGN, which [toLowerCase] turns into
    [k]), that is exactly when the name holds no ASCII letter and no
    digit. *)
Theorem empty_identifier_iff_nothing_alphanumeric :
  (forall (lower strip : string -> string) (name : string),
     slugifyWith lower strip name = "" <-> hasLowerAlnum (strip (lower name)) = false)
  /\ (forall name : string,
        slugify name = "" <-> hasLowerAlnum (JsString.toLowerCase name) = false)
  /\ (forall name : string, slugify name = "" <-> hasAsciiAlnum name = false).
Proof.
  split; [|split].
  - intros lower strip name. apply derived_empty.
  - intro name. unfold slugify, slugifyWith. rewrite derived_empty.
    unfold JsString.trim. now rewrite hasLowerAlnum_trimEnd, hasLowerAlnum_trimStart.
  - intro name. unfold slugify, slugifyWith. rewrite derived_empty.
    unfold JsString.trim.
    now rewrite hasLowerAlnum_trimEnd, hasLowerAlnum_trimStart, hasLowerAlnum_toLowerCase.
Qed.

(** ** Prefixes: the bearer token and the [web:] address space *)

Lemma substring_whole (s : string) : String.substring 0 (String.length s) s = s.
Proof. induction s as [|c s IH]; simpl; [reflexivity | now rewrite IH]. Qed.

Lemma prefix_split (p : string) :
  forall s, String.prefix p s = true ->
            s = String.append p
                  (String.substring (String.length p) (String.length s - String.length p) s).
Proof.
  induction p as [|a p IH]; intros s H.
  - simpl. now rewrite Nat.sub_0_r, substring_whole.
  - destruct s as [|b s]; [discriminate|]. simpl in H.
    destruct (ascii_dec a b) as [->|_]; [|discriminate].
    simpl. f_equal. apply IH, H.
Qed.

Lemma prefix_append (p t : string) : String.prefix p (String.append p t) = true.
Proof.
  induction p as [|a p IH]; simpl; [now destruct t|].
  destruct (ascii_dec a a) as [_|Hne]; [exact IH | now elim Hne].
Qed.

Lemma substring_append (p t : string) :
  String.substring (String.length p)
    (String.length (String.append p t) - String.length p) (String.append p t) = t.
Proof.
  induction p as [|a p IH]; simpl.
  - now rewrite Nat.sub_0_r, substring_whole.
  - exact IH.
Qed.

Lemma prefixed_iff (p s t : string) :
  JsString.startsWith p s
  && String.eqb (String.substring (String.length p) (String.length s - String.length p) s) t
  = true
  <-> s = String.append p t.
Proof.
  unfold JsString.startsWith. rewrite andb_true_iff, String.eqb_eq. split.
  - intros [Hp Ht]. rewrite (prefix_split p s Hp) at 1. now rewrite Ht.
  - intros ->. split; [apply prefix_append | apply substring_append].
Qed.

(** X10. [authenticate] accepts a request exactly when its [token] query
    parameter is the configured token or its [Authorization] header is
    "Bearer " followed by the configured token, and nothing but it. *)
Theorem authenticate_accepts_exactly_the_token
  (ch : WebChannel) (queryToken authHeader : option string) :
  authenticate ch queryToken authHeader = true
  <-> queryToken = Some (token ch)
      \/ authHeader = Some (String.append "Bearer " (token ch)).
Proof.
  unfold authenticate. rewrite orb_true_iff. split.
  - intros [Hq | Ha].
    + destruct queryToken as [q|]; [|discriminate].
      apply String.eqb_eq in Hq. left. now subst.
    + destruct authHeader as [a|]; [|discriminate].
      apply (prefixed_iff "Bearer " a (token ch)) in Ha. right. now subst.
  - intros [-> | ->].
    + left. apply String.eqb_refl.
    + right. apply (prefixed_iff "Bearer " _ (token ch)). reflexivity.
Qed.

(** ** Listing and creating rooms *)

Lemma roomListing_web (slug : string) (group : RegisteredGroup) :
  roomListing (template ["web:"; slug], group) = listedRoom slug group.
Proof.
  unfold roomListing, listedRoom. do 2 f_equal. f_equal. f_equal.
  exact (substring_append "web:" slug).
Qed.

Lemma web_jid_split (jid : string) :
  JsString.startsWith "web:" jid = true ->
  jid = template ["web:"; String.substring 4 (String.length jid - 4) jid].
Proof. intro H. exact (prefix_split "web:" jid H). Qed.

(** X11. [handleListRooms] answers 200 with one object for each registry
    entry whose identifier begins with [web:], in registry order: the
    room [web:<slug>] is listed under the short name [<slug>], and every
    object listed comes from such an entry, so rooms of other channels
    never show. *)
Theorem room_list_shows_exactly_the_web_rooms
  (ch : WebChannel) (groups : Registry) (r : Res) :
  exists rooms,
    handleListRooms ch groups r
    = (ch, [ WriteHead r 200 jsonHeaders; EndResponse r (Some (Json (JArr rooms))) ])
    /\ (forall slug group,
          In (template ["web:"; slug], group) groups -> In (listedRoom slug group) rooms)
    /\ (forall listed,
          In listed rooms ->
          exists slug group,
            In (template ["web:"; slug], group) groups /\ listed = listedRoom slug group)
    /\ List.length rooms
       = List.length (filter (fun entry => ownsJid (fst entry)) groups).
Proof.
  eexists. split; [reflexivity|]. repeat split.
  - intros slug group Hin. rewrite <- roomListing_web. apply in_map.
    apply filter_In. split; [exact Hin | apply web_prefix].
  - intros listed Hin. apply in_map_iff in Hin as [[jid group] [<- Hin]].
    apply filter_In in Hin as [Hin Hweb]. cbn [fst] in Hweb.
    exists (String.substring 4 (String.length jid - 4) jid), group.
    rewrite <- (web_jid_split jid Hweb). split; [exact Hin|].
    rewrite (web_jid_split jid Hweb) at 1. apply roomListing_web.
  - apply length_map.
Qed.

(** X12. Every call of [handleCreateRoom] leaves the channel alone and
    either registers one room, under an identifier of this gateway that is
    not empty and not yet in the registry, writes its chat metadata and
    answers 201, in that order; or answers 400, 409, 413 or 500 and reaches
    neither callback. *)
Theorem room_creation_is_all_or_nothing
  (P : Platform) (ch : WebChannel) (groups : Registry) (clk : Clock) (r : Res)
  (chunks : list string) :
  fst (handleCreateRoom P ch groups clk r chunks) = ch
  /\ ((exists body title,
          hasOnRegisterGroup ch = true
          /\ receiveBody 10000%N "" chunks = Some body
          /\ submittedField P "name" body = Some title
          /\ slugify title <> ""
          /\ groupAt (template ["web:"; slugify title]) groups = None
          /\ ownsJid (template ["web:"; slugify title]) = true
          /\ snd (handleCreateRoom P ch groups clk r chunks) = created P clk r title)
      \/ (exists status answer extra,
             snd (handleCreateRoom P ch groups clk r chunks)
             = (respondJson r status answer ++ extra)%list
             /\ (extra = [] \/ extra = [DestroyRequest r])
             /\ (status = 400 \/ status = 409 \/ status = 413 \/ status = 500))).
Proof.
  split; [apply handleCreateRoom_channel|].
  unfold handleCreateRoom.
  destruct (hasOnRegisterGroup ch) eqn:Hreg; cbn [negb];
    [|right; exists 500, (errorBody "Room creation not available"), []; cbn [snd];
      rewrite app_nil_r; auto 6].
  destruct (receiveBody 10000%N "" chunks) as [body|] eqn:Hbody;
    [|right; exists 413, (errorBody "Payload too large"), [DestroyRequest r]; auto 6].
  unfold createRoomEnd.
  assert (Hbad : forall message,
            exists status answer extra,
              respondJson r 400 (errorBody message)
              = (respondJson r status answer ++ extra)%list
              /\ (extra = [] \/ extra = [DestroyRequest r])
              /\ (status = 400 \/ status = 409 \/ status = 413 \/ status = 500)).
  { intro message. exists 400, (errorBody message), []. rewrite app_nil_r. auto 6. }
  destruct (JSON_parse P body) as [parsed|] eqn:Hparse; [|right; apply Hbad].
  destruct (destructure "name" parsed) as [field|] eqn:Hfield; [|right; apply Hbad].
  destruct (negb (truthy field) || negb (typeofString field)) eqn:Hvalid; [right; apply Hbad|].
  destruct field as [[|b|n|title|items|fields]|];
    cbn [truthy typeofString negb] in Hvalid; rewrite ?orb_true_r in Hvalid;
    try discriminate.
  cbn [stringOf].
  destruct (negb (truthy (Some (JStr (slugify title))))) eqn:Hslug; [right; apply Hbad|].
  destruct (groupAt (template ["web:"; slugify title]) groups) eqn:Hgroup.
  - right. eexists 409, _, []. cbn [snd]. rewrite app_nil_r. auto 6.
  - left. exists body, title. repeat split; try reflexivity.
    + unfold submittedField. now rewrite Hparse, Hfield.
    + cbn [truthy] in Hslug. apply negb_false_iff, negb_true_iff, String.eqb_neq in Hslug.
      exact Hslug.
    + exact Hgroup.
    + apply web_prefix.
Qed.

(** X13. A name with a text field that derives to a non-empty identifier
    not yet in the registry is created: [onRegisterGroup] gets the room
    [web:<slug>] with folder [web-<slug>], no trigger required and the
    name as typed, [onChatMetadata] follows, and the answer is 201 with
    slug, name and identifier. *)
Theorem fresh_room_is_created
  (P : Platform) (ch : WebChannel) (groups : Registry) (clk : Clock) (r : Res)
  (chunks : list string) (body title : string) :
  hasOnRegisterGroup ch = true ->
  receiveBody 10000%N "" chunks = Some body ->
  submittedField P "name" body = Some title ->
  slugify title <> "" ->
  groupAt (template ["web:"; slugify title]) groups = None ->
  handleCreateRoom P ch groups clk r chunks = (ch, created P clk r title).
Proof.
  intros Hreg Hbody Hfield Hslug Hgroup.
  assert (Hname : title <> "") by (intros ->; apply Hslug, slugify_empty).
  unfold handleCreateRoom. rewrite Hreg, Hbody. cbn [negb].
  unfold createRoomEnd, submittedField in *.
  destruct (JSON_parse P body) as [parsed|]; [|discriminate].
  destruct (destructure "name" parsed) as [[v|]|]; try discriminate.
  destruct v; try discriminate. injection Hfield as ->.
  apply String.eqb_neq in Hname, Hslug.
  cbn [truthy typeofString stringOf]. rewrite Hname, Hslug. cbn [negb orb].
  rewrite Hgroup. reflexivity.
Qed.

(** "My Project" on an empty registry. *)
Lemma fresh_room_instance :
  let body := jsonBody "name" "My Project" in
  let P := samplePlatform body (JObj [("name", JStr "My Project")]) in
  handleCreateRoom P sampleChannel [] sampleClock 7 [body]
  = (sampleChannel,
     [ OnRegisterGroup "web:my-project"
         {| name := "My Project"; folder := "web-my-project"; trigger := "@Andy";
            added_at := "2024-01-01T00:00:00.000Z"; requiresTrigger := Some false |};
       OnChatMetadata "web:my-project" "2024-01-01T00:00:00.000Z" "My Project" "web" false;
       WriteHead 7 201 jsonHeaders;
       EndResponse 7 (Some (Json (JObj [ ("slug", JStr "my-project");
                                         ("name", JStr "My Project");
                                         ("jid", JStr "web:my-project") ]))) ]).
Proof.
  cbv zeta.
  apply (fresh_room_is_created
           (samplePlatform (jsonBody "name" "My Project") (JObj [("name", JStr "My Project")]))
           sampleChannel [] sampleClock 7 [jsonBody "name" "My Project"]
           (jsonBody "name" "My Project") "My Project").
  - reflexivity.
  - reflexivity.
  - reflexivity.
  - discriminate.
  - reflexivity.
Defined.

(** ** The router *)

Lemma stripPrefix_prefix (p : string) :
  forall s rest, stripPrefix p s = Some rest -> String.prefix p s = true.
Proof.
  induction p as [|a p IH]; intros s rest H; [now destruct s|].
  destruct s as [|b s]; [discriminate|]. simpl in *.
  destruct (Ascii.eqb_spec a b) as [->|_]; [|discriminate].
  destruct (ascii_dec b b) as [_|Hne]; [eapply IH, H | now elim Hne].
Qed.

Lemma stripPrefix_append (p t : string) : stripPrefix p (String.append p t) = Some t.
Proof.
  induction p as [|a p IH]; simpl; [reflexivity|]. now rewrite Ascii.eqb_refl.
Qed.

Lemma matchSegment_prefix (p : string) (toEnd : bool) (s seg : string) :
  matchSegment p toEnd s = Some seg -> JsString.startsWith p s = true.
Proof.
  unfold matchSegment, JsString.startsWith.
  destruct (stripPrefix p s) as [rest|] eqn:H; [|discriminate].
  intros _. eapply stripPrefix_prefix, H.
Qed.

Lemma prefix_shorter (p q s : string) :
  String.prefix (String.append p q) s = true -> String.prefix p s = true.
Proof.
  revert s. induction p as [|a p IH]; intros s H; [now destruct s|].
  destruct s as [|b s]; [discriminate|]. simpl in *.
  destruct (ascii_dec a b); [apply IH, H | discriminate].
Qed.

Lemma api_rooms_is_api (s : string) :
  JsString.startsWith "/api/rooms/" s = true -> JsString.startsWith "/api/" s = true.
Proof. apply (prefix_shorter "/api/" "rooms/"). Qed.

Lemma removeFirst_unfold (pat s : string) :
  removeFirst pat s
  = match stripPrefix pat s with
    | Some rest => rest
    | None => match s with
              | EmptyString => EmptyString
              | String c s' => String c (removeFirst pat s')
              end
    end.
Proof. destruct s; reflexivity. Qed.

Lemma removeFirst_head (p t : string) : removeFirst p (String.append p t) = t.
Proof. now rewrite removeFirst_unfold, stripPrefix_append. Qed.

Lemma spanSegment_segment (seg t : string) :
  slashFree seg = true ->
  spanSegment (String.append seg (String "/" t)) = (seg, String "/" t).
Proof.
  induction seg as [|c seg IH]; simpl; intro H; [reflexivity|].
  apply andb_true_iff in H as [Hc Hseg]. apply negb_true_iff in Hc.
  now rewrite Hc, (IH Hseg).
Qed.

Lemma spanSegment_last (seg : string) :
  slashFree seg = true -> spanSegment seg = (seg, "").
Proof.
  induction seg as [|c seg IH]; simpl; intro H; [reflexivity|].
  apply andb_true_iff in H as [Hc Hseg]. apply negb_true_iff in Hc.
  now rewrite Hc, (IH Hseg).
Qed.

Lemma turnedAway_answer (r : Res) (ch : WebChannel) (req : Request)
  (status : nat) (headers : Headers) (body : option Payload) :
  status = 204 \/ status = 401 \/ status = 404 ->
  (JsString.startsWith "/api/" (reqPathname req) = true ->
   reqMethod req <> "OPTIONS" ->
   [ WriteHead r status headers; EndResponse r body ]
   = respondJson r 401 (errorBody "Unauthorized")) ->
  turnedAway r ch req (routed r (ch, [ WriteHead r status headers; EndResponse r body ])).
Proof.
  intros Hstatus Hapi. unfold turnedAway, routed. cbn [fst snd].
  split; [reflexivity | split; [reflexivity | split]].
  - exists status, headers, body. split; [reflexivity | exact Hstatus].
  - intros H1 H2. now rewrite (Hapi H1 H2).
Qed.

Lemma not_api_root (s : string) :
  s = "/" -> JsString.startsWith "/api/" s = true -> False.
Proof. intros ->. discriminate. Qed.

Lemma not_api_page (s seg : string) (toEnd : bool) :
  matchSegment "/r/" toEnd s = Some seg -> JsString.startsWith "/api/" s = true -> False.
Proof.
  intros Hui Hapi. apply matchSegment_prefix in Hui. unfold JsString.startsWith in *.
  rewrite (prefix_split "/api/" _ Hapi) in Hui. discriminate.
Qed.

Lemma turnedAway_without_token
  (W : WebPlatform) (P : Platform) (ch : WebChannel) (groups : Registry) (clk : Clock)
  (r : Res) (timer : Timer) (req : Request) :
  authenticate ch (reqQueryToken req) (reqAuthorization req) = false ->
  turnedAway r ch req (handleRequest W P ch groups clk r timer req).
Proof.
  intro Hauth.
  assert (H404 : JsString.startsWith "/api/" (reqPathname req) = false ->
                 turnedAway r ch req (notFound r ch)).
  { intro Hapi. apply turnedAway_answer; [auto | congruence]. }
  assert (Hrest : turnedAway r ch req (apiRoutes W P ch groups clk r timer req)).
  { unfold apiRoutes. cbv zeta. rewrite Hauth. cbn [negb].
    destruct (JsString.startsWith "/api/" (reqPathname req)) eqn:Hapi; cbn [andb].
    - apply turnedAway_answer; [auto | reflexivity].
    - destruct (String.eqb_spec (reqPathname req) "/api/rooms") as [E|_];
        [rewrite E in Hapi; discriminate|]. cbn [andb].
      unfold extractRoomSlug.
      destruct (matchSegment "/api/rooms/" false (reqPathname req)) as [seg|] eqn:Hm.
      { apply matchSegment_prefix, api_rooms_is_api in Hm. congruence. }
      assert (Hnot : JsString.startsWith "/api/rooms/" (reqPathname req) = false).
      { destruct (JsString.startsWith "/api/rooms/" (reqPathname req)) eqn:E;
          [|reflexivity]. apply api_rooms_is_api in E. congruence. }
      destruct (matchSegment "/r/" false (reqPathname req)) as [seg|] eqn:Hui.
      + destruct (decodeURIComponent W seg) as [room|]; cbn [option_map].
        * rewrite Hnot, andb_false_r. apply H404. reflexivity.
        * eapply matchSegment_prefix, Hui.
      + apply H404. reflexivity. }
  unfold handleRequest. cbv zeta. rewrite Hauth. cbn [negb].
  destruct (String.eqb_spec (reqMethod req) "OPTIONS") as [Hopt|Hopt].
  { apply turnedAway_answer; [auto | contradiction]. }
  destruct (String.eqb_spec (reqPathname req) "/") as [Hroot|Hroot]; cbn [andb].
  - destruct (String.eqb (reqMethod req) "GET").
    + apply turnedAway_answer; [auto | intros Hapi; now elim (not_api_root _ Hroot Hapi)].
    + destruct (matchSegment "/r/" true (reqPathname req)); exact Hrest.
  - destruct (matchSegment "/r/" true (reqPathname req)) as [seg|] eqn:Hui; [|exact Hrest].
    destruct (String.eqb (reqMethod req) "GET"); [|exact Hrest].
    apply turnedAway_answer; [auto | intros Hapi; now elim (not_api_page _ _ _ Hui Hapi)].
Qed.

(** X14. [handleRequest] without a valid token.  When [new URL] refuses
    the request URL, the function raises TypeError before it sets a header
    or answers.  For a request whose URL [new URL] accepts and that
    carries no valid token, no handler runs: the channel stays as it is
    and the only answer is 204 (preflight), 401 or 404, with no handler
    event at all; every path under [/api/] is answered 401 unless the
    method is OPTIONS; and the one other way out is a URIError from
    [decodeURIComponent], only for a path under [/r/]. *)
Theorem no_token_no_handler
  (newURL : UrlParser) (W : WebPlatform) (P : Platform) (ch : WebChannel)
  (groups : Registry) (clk : Clock) (r : Res) (timer : Timer) (msg : IncomingMessage) :
  (newURL (requestUrl msg) (requestBase msg) = None ->
   handleRequestFromUrl newURL W P ch groups clk r timer msg = inr TypeError)
  /\ (forall (pathname : string) (queryToken : option string),
        newURL (requestUrl msg) (requestBase msg) = Some (pathname, queryToken) ->
        authenticate ch queryToken (imAuthorization msg) = false ->
        match handleRequestFromUrl newURL W P ch groups clk r timer msg with
        | inl (ch', events) =>
            ch' = ch
            /\ requestSideEffects events = []
            /\ (exists status headers body,
                   events = (corsHeaders r
                             ++ [ Handled (WriteHead r status headers);
                                  Handled (EndResponse r body) ])%list
                   /\ (status = 204 \/ status = 401 \/ status = 404))
            /\ (JsString.startsWith "/api/" pathname = true ->
                imMethod msg <> "OPTIONS" ->
                events = (corsHeaders r
                          ++ map Handled (respondJson r 401 (errorBody "Unauthorized")))%list)
        | inr e => e = URIError /\ JsString.startsWith "/r/" pathname = true
        end).
Proof.
  unfold handleRequestFromUrl. split.
  - intros ->. reflexivity.
  - intros pathname queryToken -> Hauth.
    pose proof (turnedAway_without_token W P ch groups clk r timer
                  (request (imMethod msg) pathname queryToken (imAuthorization msg)
                     (imChunks msg)) Hauth) as H.
    unfold turnedAway in H.
    destruct (handleRequest W P ch groups clk r timer
                (request (imMethod msg) pathname queryToken (imAuthorization msg)
                   (imChunks msg))) as [[ch' events]|].
    + exact H.
    + split; [reflexivity | exact H].
Qed.

(** A send request with a wrong bearer token, and a request for [//]. *)
Lemma no_token_instance :
  let P := samplePlatform "" JNull in
  let send := {| imMethod := "POST"; imUrl := Some "/api/rooms/default/send";
                 imHost := Some "localhost:3000"; imAuthorization := Some "Bearer wrong";
                 imChunks := ["{}"] |} in
  let bad := {| imMethod := "GET"; imUrl := Some "//"; imHost := None;
                imAuthorization := None; imChunks := [] |} in
  handleRequestFromUrl sampleNewURL sampleWeb P sampleChannel [] sampleClock 7 8 send
  = inl (sampleChannel,
         (corsHeaders 7 ++ map Handled (respondJson 7 401 (errorBody "Unauthorized")))%list)
  /\ handleRequestFromUrl sampleNewURL sampleWeb P sampleChannel [] sampleClock 7 8 bad
     = inr TypeError.
Proof.
  cbv zeta. split.
  - pose proof (proj2 (no_token_no_handler sampleNewURL sampleWeb (samplePlatform "" JNull)
                         sampleChannel [] sampleClock 7 8
                         {| imMethod := "POST"; imUrl := Some "/api/rooms/default/send";
                            imHost := Some "localhost:3000";
                            imAuthorization := Some "Bearer wrong"; imChunks := ["{}"] |})
                  "/api/rooms/default/send" None eq_refl eq_refl) as H.
    destruct (handleRequestFromUrl sampleNewURL sampleWeb (samplePlatform "" JNull)
                sampleChannel [] sampleClock 7 8
                {| imMethod := "POST"; imUrl := Some "/api/rooms/default/send";
                   imHost := Some "localhost:3000";
                   imAuthorization := Some "Bearer wrong"; imChunks := ["{}"] |})
      as [[ch' events]|e] eqn:E.
    + destruct H as [-> [_ [_ H]]]. rewrite H; [reflexivity | reflexivity | discriminate].
    + destruct H as [_ H]. discriminate H.
  - apply (proj1 (no_token_no_handler sampleNewURL sampleWeb (samplePlatform "" JNull)
                    sampleChannel [] sampleClock 7 8
                    {| imMethod := "GET"; imUrl := Some "//"; imHost := None;
                       imAuthorization := None; imChunks := [] |})).
    reflexivity.
Defined.

Section Routes.

Variables (W : WebPlatform) (P : Platform) (ch : WebChannel) (groups : Registry)
          (clk : Clock) (r : Res) (timer : Timer).
Variables (queryToken authHeader : option string) (chunks : list string).
Variables (seg room : string).

Hypothesis authenticated : authenticate ch queryToken authHeader = true.
Hypothesis segment : slashFree seg = true.
Hypothesis segment_not_empty : seg <> "".
Hypothesis decoded : decodeURIComponent W seg = Some room.
Hypothesis room_not_empty : room <> "".
Hypothesis canonical : encodeURIComponent W room = seg.

Lemma extract_room (tail : string) :
  extractRoomSlug W (String.append "/api/rooms/" (String.append seg (String "/" tail)))
  = Some (Some room).
Proof.
  unfold extractRoomSlug, matchSegment.
  rewrite stripPrefix_append, (spanSegment_segment seg tail segment).
  apply String.eqb_neq in segment_not_empty. rewrite segment_not_empty.
  cbn [andb]. now rewrite decoded.
Qed.

Lemma suffix_of_room_path (tail : string) :
  removeFirst (template ["/api/rooms/"; encodeURIComponent W room])
    (String.append "/api/rooms/" (String.append seg (String "/" tail)))
  = String "/" tail.
Proof.
  rewrite canonical, <- append_assoc.
  change (template ["/api/rooms/"; seg]) with (String.append "/api/rooms/" seg).
  apply removeFirst_head.
Qed.

Lemma room_route (method tail : string) :
  method <> "OPTIONS" ->
  handleRequest W P ch groups clk r timer
    (request method (String.append "/api/rooms/" (String.append seg (String "/" tail)))
       queryToken authHeader chunks)
  = if String.eqb (String "/" tail) "/events" && String.eqb method "GET" then
      routed r (handleSse P ch r timer room)
    else if String.eqb (String "/" tail) "/send" && String.eqb method "POST" then
      routed r (handleSend P ch groups clk r room chunks)
    else if String.eqb (String "/" tail) "/history" && String.eqb method "GET" then
      routed r (handleHistory P ch r room)
    else notFound r ch.
Proof.
  intro Hopt. apply String.eqb_neq in Hopt.
  unfold handleRequest, request. cbn [reqMethod reqPathname reqQueryToken reqAuthorization reqChunks].
  rewrite Hopt.
  change (String.eqb (String.append "/api/rooms/" (String.append seg (String "/" tail))) "/")
    with false.
  cbn [andb].
  change (matchSegment "/r/" true
            (String.append "/api/rooms/" (String.append seg (String "/" tail))))
    with (@None string).
  unfold apiRoutes.
  cbn [reqMethod reqPathname reqQueryToken reqAuthorization reqChunks].
  rewrite authenticated, andb_false_r.
  assert (Hlist : String.eqb
                    (String.append "/api/rooms/" (String.append seg (String "/" tail)))
                    "/api/rooms" = false).
  { apply String.eqb_neq. intro E. apply (f_equal String.length) in E.
    rewrite !length_append in E. simpl in E. lia. }
  rewrite Hlist. cbn [andb]. rewrite extract_room.
  apply String.eqb_neq in room_not_empty. cbn [truthyString]. rewrite room_not_empty.
  unfold JsString.startsWith. rewrite prefix_append. cbn [negb andb].
  rewrite suffix_of_room_path. reflexivity.
Qed.

(** X15. With a valid token, a path [/api/rooms/<segment>/...] whose
    segment is the canonical encoding of a room name is dispatched on that
    room: GET [.../events] runs [handleSse], POST [.../send] runs
    [handleSend] on the body, GET [.../history] runs [handleHistory], each
    with the decoded name; any other method gets 404. *)
Theorem room_routes_reach_their_handlers :
  handleRequest W P ch groups clk r timer
    (request "GET" (template ["/api/rooms/"; seg; "/events"]) queryToken authHeader chunks)
  = routed r (handleSse P ch r timer room)
  /\ handleRequest W P ch groups clk r timer
       (request "POST" (template ["/api/rooms/"; seg; "/send"]) queryToken authHeader chunks)
     = routed r (handleSend P ch groups clk r room chunks)
  /\ handleRequest W P ch groups clk r timer
       (request "GET" (template ["/api/rooms/"; seg; "/history"]) queryToken authHeader chunks)
     = routed r (handleHistory P ch r room)
  /\ handleRequest W P ch groups clk r timer
       (request "POST" (template ["/api/rooms/"; seg; "/events"]) queryToken authHeader chunks)
     = notFound r ch
  /\ handleRequest W P ch groups clk r timer
       (request "GET" (template ["/api/rooms/"; seg; "/send"]) queryToken authHeader chunks)
     = notFound r ch.
Proof.
  repeat split.
  - apply (room_route "GET" "events"). discriminate.
  - apply (room_route "POST" "send"). discriminate.
  - apply (room_route "GET" "history"). discriminate.
  - apply (room_route "POST" "events"). discriminate.
  - apply (room_route "GET" "send"). discriminate.
Qed.

End Routes.

(** POST [/api/rooms/default/send] with the token in the query. *)
Lemma room_routes_instance :
  let P := samplePlatform (jsonBody "text" "Hello") (JObj [("text", JStr "Hello")]) in
  let groups := [("web:default", sampleGroup "Web Chat" "default")] in
  let body := [jsonBody "text" "Hello"] in
  handleRequest sampleWeb P sampleChannel groups sampleClock 7 8
    (request "POST" "/api/rooms/default/send" (Some "test-token-123") None body)
  = routed 7 (handleSend P sampleChannel groups sampleClock 7 "default" body).
Proof.
  cbv zeta.
  apply (room_routes_reach_their_handlers
           sampleWeb
           (samplePlatform (jsonBody "text" "Hello") (JObj [("text", JStr "Hello")]))
           sampleChannel [("web:default", sampleGroup "Web Chat" "default")]
           sampleClock 7 8 (Some "test-token-123") None [jsonBody "text" "Hello"]
           "default" "default").
  - reflexivity.
  - reflexivity.
  - discriminate.
  - reflexivity.
  - discriminate.
  - reflexivity.
Defined.

(** X16. With a valid token, GET [/r/<segment>] serves the chat page of the
    decoded room when the registry knows [web:<room>] and answers 404
    "Room not found" when it does not; either way the channel and its
    subscribers are untouched. *)
Theorem chat_page_only_for_known_rooms
  (W : WebPlatform) (P : Platform) (ch : WebChannel) (groups : Registry) (clk : Clock)
  (r : Res) (timer : Timer) (queryToken authHeader : option string) (chunks : list string)
  (seg room : string) :
  authenticate ch queryToken authHeader = true ->
  slashFree seg = true -> seg <> "" ->
  decodeURIComponent W seg = Some room ->
  handleRequest W P ch groups clk r timer
    (request "GET" (template ["/r/"; seg]) queryToken authHeader chunks)
  = routed r
      (ch, match groupAt (template ["web:"; room]) groups with
           | Some _ => respondText r 200 "text/html; charset=utf-8"
                         (getWebUiHtml W (token ch) room)
           | None => respondText r 404 "text/plain" "Room not found"
           end).
Proof.
  intros Hauth Hseg Hne Hdec. apply String.eqb_neq in Hne.
  unfold handleRequest, request.
  cbn [reqMethod reqPathname reqQueryToken reqAuthorization reqChunks].
  change (String.eqb "GET" "OPTIONS") with false. cbv iota.
  assert (Hroot : String.eqb (template ["/r/"; seg]) "/" = false).
  { apply String.eqb_neq. intro E. apply (f_equal String.length) in E.
    change (template ["/r/"; seg]) with (String.append "/r/" seg) in E.
    rewrite length_append in E. simpl in E. lia. }
  rewrite Hroot. cbn [andb].
  assert (Hui : matchSegment "/r/" true (template ["/r/"; seg]) = Some seg).
  { change (template ["/r/"; seg]) with (String.append "/r/" seg).
    unfold matchSegment. rewrite stripPrefix_append, (spanSegment_last seg Hseg), Hne.
    reflexivity. }
  rewrite Hui. change (String.eqb "GET" "GET") with true. cbv iota.
  rewrite Hauth, Hdec. cbn [negb]. destruct (groupAt _ groups); reflexivity.
Qed.

(** The page of a room that the registry lacks. *)
Lemma chat_page_instance :
  let P := samplePlatform "" JNull in
  let groups := [("web:default", sampleGroup "Web Chat" "default")] in
  handleRequest sampleWeb P sampleChannel groups sampleClock 7 8
    (request "GET" "/r/nonexistent" (Some "test-token-123") None [])
  = routed 7 (sampleChannel, respondText 7 404 "text/plain" "Room not found").
Proof.
  cbv zeta.
  apply (chat_page_only_for_known_rooms
           sampleWeb (samplePlatform "" JNull) sampleChannel
           [("web:default", sampleGroup "Web Chat" "default")] sampleClock 7 8
           (Some "test-token-123") None [] "nonexistent" "nonexistent").
  - reflexivity.
  - reflexivity.
  - discriminate.
  - reflexivity.
Defined.

(** X17. The router decodes the segment of a path under [/r/] before it
    asks for a token whenever the request is not a GET of the page itself:
    if [decodeURIComponent] raises on the segment, [handleRequest] answers
    nothing and lets the URIError out, whatever token the request
    carries. *)
Theorem undecodable_page_path_raises
  (W : WebPlatform) (P : Platform) (ch : WebChannel) (groups : Registry) (clk : Clock)
  (r : Res) (timer : Timer) (queryToken authHeader : option string) (chunks : list string)
  (method seg : string) :
  method <> "OPTIONS" -> method <> "GET" ->
  slashFree seg = true -> seg <> "" ->
  decodeURIComponent W seg = None ->
  handleRequest W P ch groups clk r timer
    (request method (template ["/r/"; seg]) queryToken authHeader chunks) = None.
Proof.
  intros Hopt Hget Hseg Hne Hdec.
  apply String.eqb_neq in Hopt, Hget, Hne.
  unfold handleRequest, request.
  cbn [reqMethod reqPathname reqQueryToken reqAuthorization reqChunks].
  rewrite Hopt, Hget, andb_false_r.
  change (template ["/r/"; seg]) with (String.append "/r/" seg).
  assert (Hui : forall toEnd, matchSegment "/r/" toEnd (String.append "/r/" seg) = Some seg).
  { intro toEnd. unfold matchSegment.
    rewrite stripPrefix_append, (spanSegment_last seg Hseg), Hne.
    destruct toEnd; reflexivity. }
  rewrite Hui. unfold apiRoutes.
  cbn [reqMethod reqPathname reqQueryToken reqAuthorization reqChunks].
  change (JsString.startsWith "/api/" (String.append "/r/" seg)) with false.
  cbn [andb].
  assert (Hlist : String.eqb (String.append "/r/" seg) "/api/rooms" = false)
    by reflexivity.
  rewrite Hlist. cbn [andb]. unfold extractRoomSlug.
  change (matchSegment "/api/rooms/" false (String.append "/r/" seg)) with (@None string).
  now rewrite Hui, Hdec.
Qed.

(** POST [/r/%zz], without any token. *)
Lemma undecodable_page_path_instance :
  handleRequest sampleWeb (samplePlatform "" JNull) sampleChannel [] sampleClock 7 8
    (request "POST" "/r/%zz" None None []) = None.
Proof.
  apply (undecodable_page_path_raises
           sampleWeb (samplePlatform "" JNull) sampleChannel [] sampleClock 7 8
           None None [] "POST" "%zz").
  - discriminate.
  - discriminate.
  - reflexivity.
  - discriminate.
  - reflexivity.
Defined.

(** ** [escapeHtml] *)

Lemma escapeHtml_step (a : ascii) (r : string) :
  escapeHtml (String a r) = String.append (escapeChar a) (escapeHtml r).
Proof.
  unfold escapeHtml.
  destruct a as [[] [] [] [] [] [] [] []]; reflexivity.
Qed.

Lemma escapeHtml_each (s : string) : escapeHtml s = escapeEach s.
Proof.
  induction s as [|a r IH]; [reflexivity|].
  rewrite escapeHtml_step, IH. reflexivity.
Qed.

Lemma markupFree_append (a b : string) :
  markupFree (String.append a b) = markupFree a && markupFree b.
Proof.
  induction a as [|c a IH]; simpl; [reflexivity|]. rewrite IH.
  now rewrite !andb_assoc.
Qed.

Lemma markupFree_escapeChar (c : ascii) : markupFree (escapeChar c) = true.
Proof. by_code_unit c. Qed.

Lemma plain_escapeChar (c : ascii) :
  negb (Ascii.eqb c "&"%char) && markupFree (String c EmptyString) = true ->
  escapeChar c = String c EmptyString.
Proof. by_code_unit c. Qed.

(** X18. The four replacements of [escapeHtml] never act on each other's
    output: the result is the input with each of [&], [<], [>] and the
    double quote replaced by its entity, once.  It holds no [<], [>] or
    double quote, and a text without the four characters comes back
    unchanged. *)
Theorem escapeHtml_escapes_each_character_once (s : string) :
  escapeHtml s = escapeEach s
  /\ markupFree (escapeHtml s) = true
  /\ (plainText s = true -> escapeHtml s = s).
Proof.
  split; [apply escapeHtml_each | rewrite escapeHtml_each; split].
  - induction s as [|c r IH]; [reflexivity|].
    cbn [escapeEach]. now rewrite markupFree_append, markupFree_escapeChar, IH.
  - induction s as [|c r IH]; [reflexivity|].
    cbn [plainText escapeEach]. intro H. apply andb_true_iff in H as [Hc Hr].
    now rewrite (plain_escapeChar c Hc), (IH Hr).
Qed.

Lemma escapeChar_cancel (c1 c2 : ascii) (x y : string) :
  String.append (escapeChar c1) x = String.append (escapeChar c2) y -> c1 = c2 /\ x = y.
Proof.
  unfold escapeChar.
  destruct (Ascii.eqb_spec c1 "&"%char) as [->|A1];
    [|destruct (Ascii.eqb_spec c1 "<"%char) as [->|L1];
      [|destruct (Ascii.eqb_spec c1 ">"%char) as [->|G1];
        [|destruct (Ascii.eqb_spec c1 (ascii_of_nat 34)) as [->|Q1]]]];
    (destruct (Ascii.eqb_spec c2 "&"%char) as [->|A2];
     [|destruct (Ascii.eqb_spec c2 "<"%char) as [->|L2];
       [|destruct (Ascii.eqb_spec c2 ">"%char) as [->|G2];
         [|destruct (Ascii.eqb_spec c2 (ascii_of_nat 34)) as [->|Q2]]]]);
    cbn; intro H; try discriminate H;
    try (injection H as H; split; [reflexivity | exact H]);
    try (injection H as E _; congruence).
  injection H as -> ->. split; reflexivity.
Qed.

Lemma escapeEach_injective (s : string) :
  forall t, escapeEach s = escapeEach t -> s = t.
Proof.
  induction s as [|c s IH]; intros [|d t] H; cbn [escapeEach] in H.
  - reflexivity.
  - exfalso. unfold escapeChar in H.
    destruct (Ascii.eqb d "&"%char), (Ascii.eqb d "<"%char), (Ascii.eqb d ">"%char),
      (Ascii.eqb d (ascii_of_nat 34)); discriminate H.
  - exfalso. unfold escapeChar in H.
    destruct (Ascii.eqb c "&"%char), (Ascii.eqb c "<"%char), (Ascii.eqb c ">"%char),
      (Ascii.eqb c (ascii_of_nat 34)); discriminate H.
  - apply escapeChar_cancel in H as [-> H]. f_equal. apply IH, H.
Qed.

(** X19. [escapeHtml] loses nothing: two different texts never have the
    same escaped form (so a text that already holds an entity is told apart
    from the character the entity stands for). *)
Theorem escapeHtml_keeps_texts_apart (s t : string) :
  s <> t -> escapeHtml s <> escapeHtml t.
Proof.
  intros Hne H. apply Hne. rewrite !escapeHtml_each in H.
  now apply escapeEach_injective.
Qed.

(** The character [<] and the text of its entity. *)
Lemma escapeHtml_instance : escapeHtml "<" <> escapeHtml "&lt;".
Proof. apply (escapeHtml_keeps_texts_apart "<" "&lt;"). discriminate. Defined.
